(** * Pinger3: statistics, checkpointing and history of a latency probe

    A shallow embedding of [Pinger3.py].  The Python functions
    [save_results], [load_history], [print_comparison],
    [print_current_results], [sigint_handler], [run_ping] (with its inner
    [update_interim]) and [main] are translated to Rocq functions over an
    explicit process state: the file system, the module-level dict
    [save_on_interrupt], the text written to standard output and two
    counters indexing the answers of the outside world (the [ping3]
    transport and the clock).

    Modelling conventions.
    - Python [int] is [Z]; Python [float] is an exact rational [Q], so a
      binary64 rounding step is the identity here: the arithmetic facts
      below are the exact ones that the floating-point results approximate.
    - A Python exception is a value of [exn]; code that may raise lives in
      the state-and-exception monad [M].
    - A [dict] is an association list in insertion order, read with
      [Py.get] and [Py.getitem].
    - The [json] library is taken at its interface: a file either fails to
      decode ([Garbage]) or decodes to the value it was dumped from
      ([Json v]).
    - [print] appends a structured [line] to [stdout]: a fixed message
      carries the source text (without its leading newline), a formatted
      message carries the values it formats.
    - [run_ping] is a step machine, so that a [SIGINT] can arrive between
      any two statements of the loop; [main] takes the moment it arrives
      as an argument.  Signals outside the loop, argument parsing and the
      interactive prompts are not modelled. *)

From Stdlib Require Import ZArith QArith Lia Lqa.
From stdpp Require Import gmap strings list.

Local Open Scope Z_scope.

(** ** Python values and exceptions *)

#[local] Set Warnings "-register-all".

Inductive pyval : Type :=
  | VNone
  | VBool (b : bool)
  | VInt (z : Z)
  | VFloat (q : Q)
  | VStr (s : string)
  | VList (l : list pyval)
  | VDict (d : list (string * pyval)).

Inductive exn : Type :=
  | ZeroDivisionError
  | ValueError
  | StatisticsError
  | AttributeError
  | KeyError
  | TypeError
  | JSONDecodeError
  | FileNotFoundError
  | OSError
  | KeyboardInterrupt
  | SystemExit (code : Z).

(** [except Exception] catches everything but the [BaseException]-only
    classes [KeyboardInterrupt] and [SystemExit]. *)
Definition is_Exception (e : exn) : bool :=
  match e with
  | KeyboardInterrupt | SystemExit _ => false
  | _ => true
  end.

Inductive res (A : Type) : Type :=
  | Ok (a : A)
  | Raise (e : exn).
Arguments Ok {A} a.
Arguments Raise {A} e.

Definition rbind {A B} (r : res A) (k : A -> res B) : res B :=
  match r with
  | Ok a => k a
  | Raise e => Raise e
  end.

(** ** Python builtins and library functions used by the program *)

Module Py.

(** [bool(v)]: the truth value used by [if v:] and [x or y]. *)
Definition truthy (v : pyval) : bool :=
  match v with
  | VNone => false
  | VBool b => b
  | VInt z => negb (z =? 0)
  | VFloat q => negb (Qeq_bool q 0)
  | VStr s => negb (String.eqb s "")
  | VList l => match l with [] => false | _ => true end
  | VDict d => match d with [] => false | _ => true end
  end.

(** *** dict operations *)

Fixpoint assoc (k : string) (d : list (string * pyval)) : option pyval :=
  match d with
  | [] => None
  | (k', v) :: d' => if String.eqb k k' then Some v else assoc k d'
  end.

(** [d[k] = v]: replaces the value in place, or appends a new key. *)
Fixpoint setitem (k : string) (v : pyval) (d : list (string * pyval))
  : list (string * pyval) :=
  match d with
  | [] => [(k, v)]
  | (k', v') :: d' =>
      if String.eqb k k' then (k, v) :: d' else (k', v') :: setitem k v d'
  end.

(** [d.update(u)] for a dict literal [u]. *)
Definition update (d u : list (string * pyval)) : list (string * pyval) :=
  fold_left (fun acc kv => setitem (fst kv) (snd kv) acc) u d.

(** [v.get(k)]: [None] for a missing key, [AttributeError] when [v] is not
    a dict (no JSON value other than an object has a [get] attribute). *)
Definition get (v : pyval) (k : string) : res pyval :=
  match v with
  | VDict d => Ok (match assoc k d with Some x => x | None => VNone end)
  | _ => Raise AttributeError
  end.

(** [v[k]] with a string key. *)
Definition getitem (v : pyval) (k : string) : res pyval :=
  match v with
  | VDict d => match assoc k d with Some x => Ok x | None => Raise KeyError end
  | _ => Raise TypeError
  end.

Definition is_None (v : pyval) : bool :=
  match v with VNone => true | _ => false end.

(** [v == s] for a [str] [s]. *)
Definition eq_str (v : pyval) (s : string) : bool :=
  match v with VStr s' => String.eqb s' s | _ => false end.

(** *** numbers *)

(** The numeric reading of a value: [bool] and [int] are exact integers,
    [float] a rational. *)
Inductive num : Type :=
  | NInt (z : Z)
  | NFloat (q : Q).

Definition as_num (v : pyval) : option num :=
  match v with
  | VBool b => Some (NInt (if b then 1 else 0))
  | VInt z => Some (NInt z)
  | VFloat q => Some (NFloat q)
  | _ => None
  end.

Definition num_Q (n : num) : Q :=
  match n with NInt z => inject_Z z | NFloat q => q end.

(** [a - b] *)
Definition sub (a b : pyval) : res pyval :=
  match as_num a, as_num b with
  | Some (NInt x), Some (NInt y) => Ok (VInt (x - y))
  | Some x, Some y => Ok (VFloat (num_Q x - num_Q y))
  | _, _ => Raise TypeError
  end.

(** [format(v, '.2f')]: defined on numbers only.  The result stands for
    the decimal text; it carries the number that text renders. *)
Definition format_f (v : pyval) : res Q :=
  match v, as_num v with
  | _, Some n => Ok (num_Q n)
  | VNone, _ | VList _, _ | VDict _, _ => Raise TypeError
  | _, _ => Raise ValueError
  end.

(** [a / b] on two [int]s: true division. *)
Definition truediv (a b : Z) : res Q :=
  if b =? 0 then Raise ZeroDivisionError
  else Ok (inject_Z a / inject_Z b)%Q.

Definition Qlt_bool (x y : Q) : bool := negb (Qle_bool y x).

(** [min(l)]: the first smallest element, [ValueError] on an empty list. *)
Fixpoint min_from (best : Q) (l : list Q) : Q :=
  match l with
  | [] => best
  | x :: l' => min_from (if Qlt_bool x best then x else best) l'
  end.

Definition min (l : list Q) : res Q :=
  match l with
  | [] => Raise ValueError
  | x :: l' => Ok (min_from x l')
  end.

(** [max(l)]: the first largest element. *)
Fixpoint max_from (best : Q) (l : list Q) : Q :=
  match l with
  | [] => best
  | x :: l' => max_from (if Qlt_bool best x then x else best) l'
  end.

Definition max (l : list Q) : res Q :=
  match l with
  | [] => Raise ValueError
  | x :: l' => Ok (max_from x l')
  end.

Definition Qsum (l : list Q) : Q := fold_left Qplus l 0%Q.

(** [statistics.mean(l)]: the exact sum over the length,
    [StatisticsError] on an empty list. *)
Definition mean (l : list Q) : res Q :=
  match l with
  | [] => Raise StatisticsError
  | _ => Ok (Qsum l / inject_Z (Z.of_nat (length l)))%Q
  end.

(** [s.endswith(suffix)] *)
Definition endswith (s suffix : string) : bool :=
  let n := String.length s in
  let m := String.length suffix in
  if (m <=? n)%nat then String.eqb (String.substring (n - m) m s) suffix
  else false.

(** [os.path.join(a, b)] for two components (POSIX rules). *)
Definition path_join (a b : string) : string :=
  if String.prefix "/" b then b
  else if String.eqb a "" || endswith a "/" then a +:+ b
  else a +:+ "/" +:+ b.

End Py.

(** ** The process state *)

(** What [json.load] makes of a file's text. *)
Inductive file : Type :=
  | Garbage
  | Json (v : pyval).

(** One [print] call. *)
Inductive line : Type :=
  | Text (s : string)
  | ResultsSaved (path : string)
  | ComparisonNo (idx : nat) (timestamp : pyval)
  | FieldNoData (field : string)
  | FieldDelta (field : string) (old cur diff : Q) (unit : string)
  | Target (v : pyval)
  | Timestamp (v : pyval)
  | Packets (sent received : pyval)
  | PacketLoss (loss : Q)
  | Latency (mn mx av : Q)
  | Reply (target : string) (ms : Q)
  | ResolveError (target : string)
  | PingError (e : exn).

(** The module-level dict [save_on_interrupt]; a field is [None] while it
    holds Python's [None]. *)
Record Slot : Type := mkSlot {
  stats : option pyval;
  save_path : option string;
  history : option (list pyval)
}.

Record Proc : Type := mkProc {
  fs : gmap string file;
  save_on_interrupt : Slot;
  stdout : list line;
  pings : nat;   (* calls of [ping] so far *)
  ticks : nat    (* calls of [datetime.now] so far *)
}.

(** The outside world: name resolution, the script directory, the transport
    and the clock.  [ping] answers the [n]-th probe with a delay in
    seconds, with [None] (timeout) or by raising. *)
Inductive ping_result : Type :=
  | Delay (seconds : Q)
  | NoReply
  | Raises (e : exn).

Record World : Type := mkWorld {
  gethostbyname : string -> option string;
  get_base_dir : string;
  ping : string -> Q -> Z -> nat -> ping_result;
  now : nat -> string
}.

(** ** State and exception monad *)

Definition M (A : Type) : Type := Proc -> res A * Proc.

Definition ret {A} (a : A) : M A := fun p => (Ok a, p).
Definition raise {A} (e : exn) : M A := fun p => (Raise e, p).
Definition bind {A B} (m : M A) (k : A -> M B) : M B :=
  fun p => match m p with
           | (Ok a, p') => k a p'
           | (Raise e, p') => (Raise e, p')
           end.
Definition lift {A} (r : res A) : M A := fun p => (r, p).

Declare Scope py_scope.
Delimit Scope py_scope with py.
Notation "x <- m ;; k" := (bind m (fun x => k))
  (at level 100, m at next level, right associativity) : py_scope.
Notation "m ;; k" := (bind m (fun _ => k))
  (at level 100, right associativity) : py_scope.
Local Open Scope py_scope.

(** [try: m except <classes>: h] *)
Definition try_except {A} (m : M A) (catches : exn -> bool) (h : M A) : M A :=
  fun p => match m p with
           | (Raise e, p') => if catches e then h p' else (Raise e, p')
           | r => r
           end.

Definition print (l : line) : M unit :=
  fun p => (Ok tt, mkProc (fs p) (save_on_interrupt p) (stdout p ++ [l])
                          (pings p) (ticks p)).

Definition os_path_exists (path : string) : M bool :=
  fun p => (Ok (bool_decide (is_Some (fs p !! path))), p).

(** [open(path, 'r')] followed by reading the text. *)
Definition open_read (path : string) : M file :=
  fun p => match fs p !! path with
           | Some f => (Ok f, p)
           | None => (Raise FileNotFoundError, p)
           end.

Definition json_load (f : file) : res pyval :=
  match f with
  | Garbage => Raise JSONDecodeError
  | Json v => Ok v
  end.

(** [with open(path, 'w') as f: json.dump(v, f, indent=2)] *)
Definition json_dump (v : pyval) (path : string) : M unit :=
  fun p => (Ok tt, mkProc (<[path := Json v]> (fs p)) (save_on_interrupt p)
                          (stdout p) (pings p) (ticks p)).

(** [entries if isinstance(entries, list) else [entries]] *)
Definition as_list (v : pyval) : list pyval :=
  match v with
  | VList l => l
  | _ => [v]
  end.

Definition is_JSONDecodeError (e : exn) : bool :=
  match e with JSONDecodeError => true | _ => false end.

Definition is_missing_or_undecodable (e : exn) : bool :=
  match e with FileNotFoundError | JSONDecodeError => true | _ => false end.

(** ** History store *)

Definition save_results (stats : pyval) (path : string) : M unit :=
  found <- os_path_exists path ;;
  entries <-
    (if found then
       try_except
         (f <- open_read path ;;
          v <- lift (json_load f) ;;
          ret (as_list v))
         is_JSONDecodeError
         (ret [])
     else ret []) ;;
  json_dump (VList (entries ++ [stats])) path ;;
  print (ResultsSaved path).

(** [[e for e in entries if e.get('target') == target]] *)
Fixpoint select_target (target : string) (entries : list pyval)
  : res (list pyval) :=
  match entries with
  | [] => Ok []
  | e :: rest =>
      rbind (Py.get e "target") (fun t =>
      rbind (select_target target rest) (fun tl =>
      Ok (if Py.eq_str t target then e :: tl else tl)))
  end.

Definition load_history (path target : string) : M (list pyval) :=
  try_except
    (f <- open_read path ;;
     v <- lift (json_load f) ;;
     lift (select_target target (as_list v)))
    is_missing_or_undecodable
    (ret []).

(** ** Comparator and display *)

(** [for x in l: body(x)] *)
Fixpoint for_each {A} (l : list A) (body : A -> M unit) : M unit :=
  match l with
  | [] => ret tt
  | x :: l' => body x ;; for_each l' body
  end.

(** [enumerate(l, start)] *)
Fixpoint enumerate {A} (start : nat) (l : list A) : list (nat * A) :=
  match l with
  | [] => []
  | x :: l' => (start, x) :: enumerate (S start) l'
  end.

Definition fields : list string := ["loss_percent"; "min"; "max"; "avg"].

Definition unit_of (field : string) : string :=
  if String.eqb field "loss_percent" then "%" else "ms".

(** The body of the inner loop of [print_comparison]. *)
Definition compare_field (current prev : pyval) (field : string) : M unit :=
  cur <- lift (Py.get current field) ;;
  old <- lift (Py.get prev field) ;;
  if Py.is_None cur || Py.is_None old then print (FieldNoData field)
  else
    diff <- lift (Py.sub cur old) ;;
    o <- lift (Py.format_f old) ;;
    c <- lift (Py.format_f cur) ;;
    d <- lift (Py.format_f diff) ;;
    print (FieldDelta field o c d (unit_of field)).

Definition print_comparison (current : pyval) (history : list pyval) : M unit :=
  match history with
  | [] => print (Text "No previous data for comparison.")
  | _ =>
      print (Text "=== Historical Comparison ===") ;;
      for_each (enumerate 1 history) (fun '(idx, prev) =>
        ts <- lift (Py.getitem prev "timestamp") ;;
        print (ComparisonNo idx ts) ;;
        for_each fields (compare_field current prev))
  end.

Definition print_current_results (stats : pyval) : M unit :=
  print (Text "=== Current Test Results ===") ;;
  t <- lift (Py.getitem stats "target") ;;
  print (Target t) ;;
  ts <- lift (Py.getitem stats "timestamp") ;;
  print (Timestamp ts) ;;
  s <- lift (Py.getitem stats "sent") ;;
  r <- lift (Py.getitem stats "received") ;;
  print (Packets s r) ;;
  l <- lift (Py.getitem stats "loss_percent") ;;
  lf <- lift (Py.format_f l) ;;
  print (PacketLoss lf) ;;
  mn <- lift (Py.getitem stats "min") ;;
  if negb (Py.is_None mn) then
    mnf <- lift (Py.format_f mn) ;;
    mx <- lift (Py.getitem stats "max") ;;
    mxf <- lift (Py.format_f mx) ;;
    av <- lift (Py.getitem stats "avg") ;;
    avf <- lift (Py.format_f av) ;;
    print (Latency mnf mxf avf)
  else print (Text "Latency: No data available.").

(** ** Checkpoint register and interrupt handler *)

Definition read_slot : M Slot := fun p => (Ok (save_on_interrupt p), p).

Definition write_slot (s : Slot) : M unit :=
  fun p => (Ok tt, mkProc (fs p) s (stdout p) (pings p) (ticks p)).

(** [save_on_interrupt['stats'] = v] *)
Definition set_stats (v : pyval) : M unit :=
  s <- read_slot ;;
  write_slot (mkSlot (Some v) (save_path s) (history s)).

(** The three steps both the handler and [main] run on a result.  A
    [save_path] still [None] makes [os.path.exists] raise [TypeError]; a
    [history] still [None] is falsy, so it reads as the empty list. *)
Definition save_compare_display (current : pyval) (path : option string)
    (hist : option (list pyval)) : M unit :=
  match path with
  | Some path => save_results current path
  | None => raise TypeError
  end ;;
  print_comparison current (default [] hist) ;;
  print_current_results current.

Definition sigint_handler : M unit :=
  s <- read_slot ;;
  match stats s with
  | Some current =>
      if Py.truthy current then
        print (Text "Interrupted by user. Saving results...") ;;
        save_compare_display current (save_path s) (history s)
      else ret tt
  | None => ret tt
  end ;;
  raise (SystemExit 0).

(** ** Stats aggregator and probe loop *)

(** The dict built in [update_interim] and again, with the same text, as
    [final_stats] at the end of [run_ping]. *)
Definition stats_dict (target timestamp : string) (sent lost : Z)
    (times : list Q) : res pyval :=
  rbind (if 0 <? sent
         then rbind (Py.truediv lost sent) (fun q => Ok (VFloat (q * 100)))
         else Ok (VInt 100)) (fun loss_percent =>
  let d := [("target", VStr target);
            ("timestamp", VStr timestamp);
            ("sent", VInt sent);
            ("received", VInt (sent - lost));
            ("loss_percent", loss_percent)] in
  match times with
  | _ :: _ =>
      rbind (Py.min times) (fun mn =>
      rbind (Py.max times) (fun mx =>
      rbind (Py.mean times) (fun av =>
      Ok (VDict (Py.update d [("min", VFloat mn);
                              ("max", VFloat mx);
                              ("avg", VFloat av)])))))
  | [] =>
      Ok (VDict (Py.update d [("min", VNone); ("max", VNone); ("avg", VNone)]))
  end).

(** [datetime.now().isoformat()] *)
Definition timestamp_now (w : World) : M string :=
  fun p => (Ok (now w (ticks p)),
            mkProc (fs p) (save_on_interrupt p) (stdout p) (pings p)
                   (S (ticks p))).

(** Where control is inside [run_ping]: about to call [ping] (or to leave
    the loop), holding its result before [sent += 1], before the [if],
    before [update_interim()], in [time.sleep(1)], at the final block,
    or gone (returned a dict, or left by an exception). *)
Inductive pc : Type :=
  | AtPing
  | AtCount (result : option Q)
  | AtRecord (result : option Q)
  | AtUpdate
  | AtSleep
  | AtFinal
  | Returned (final_stats : pyval)
  | Raised (e : exn).

(** The parameters and locals of one call of [run_ping]; [iter] counts the
    loop iterations completed. *)
Record Frame : Type := mkFrame {
  target : string;
  count : option Z;
  timeout : Q;
  packet_size : Z;
  times : list Q;
  lost : Z;
  sent : Z;
  iter : nat;
  at_pc : pc
}.

Definition goto (l : pc) (f : Frame) : Frame :=
  mkFrame (target f) (count f) (timeout f) (packet_size f)
          (times f) (lost f) (sent f) (iter f) l.

Definition update_interim (w : World) (f : Frame) : M unit :=
  ts <- timestamp_now w ;;
  stats <- lift (stats_dict (target f) ts (sent f) (lost f) (times f)) ;;
  set_stats stats.

(** The block after the [try]. *)
Definition final_block (w : World) (f : Frame) : M pyval :=
  ts <- timestamp_now w ;;
  final_stats <- lift (stats_dict (target f) ts (sent f) (lost f) (times f)) ;;
  set_stats final_stats ;;
  ret final_stats.

(** [while True] never leaves the loop; [for _ in range(count)] leaves it
    after [count] iterations (none for [count <= 0]). *)
Definition loop_done (f : Frame) : bool :=
  match count f with
  | None => false
  | Some c => c <=? Z.of_nat (iter f)
  end.

Definition in_try (l : pc) : bool :=
  match l with
  | AtPing | AtCount _ | AtRecord _ | AtUpdate | AtSleep => true
  | _ => false
  end.

Definition running (f : Frame) : bool :=
  match at_pc f with
  | Returned _ | Raised _ => false
  | _ => true
  end.

(** An exception surfacing at the current point: inside the [try] a
    [KeyboardInterrupt] is swallowed and control moves to the final block;
    anything else leaves [run_ping]. *)
Definition throw (e : exn) (f : Frame) : Frame :=
  match e with
  | KeyboardInterrupt =>
      if in_try (at_pc f) then goto AtFinal f else goto (Raised e) f
  | _ => goto (Raised e) f
  end.

Definition step (w : World) (c : Frame * Proc) : Frame * Proc :=
  let (f, p) := c in
  match at_pc f with
  | AtPing =>
      if loop_done f then (goto AtFinal f, p)
      else
        let p' := mkProc (fs p) (save_on_interrupt p) (stdout p)
                         (S (pings p)) (ticks p) in
        match ping w (target f) (timeout f) (packet_size f) (pings p) with
        | Delay s => (goto (AtCount (Some s)) f, p')
        | NoReply => (goto (AtCount None) f, p')
        | Raises e => (throw e f, p')
        end
  | AtCount r =>
      (mkFrame (target f) (count f) (timeout f) (packet_size f)
               (times f) (lost f) (sent f + 1) (iter f) (AtRecord r), p)
  | AtRecord None =>
      (mkFrame (target f) (count f) (timeout f) (packet_size f)
               (times f) (lost f + 1) (sent f) (iter f) AtUpdate,
       snd (print (Text "Request timed out.") p))
  | AtRecord (Some result) =>
      let ms := (result * 1000)%Q in
      (mkFrame (target f) (count f) (timeout f) (packet_size f)
               (times f ++ [ms]) (lost f) (sent f) (iter f) AtUpdate,
       snd (print (Reply (target f) ms) p))
  | AtUpdate =>
      match update_interim w f p with
      | (Ok _, p') => (goto AtSleep f, p')
      | (Raise e, p') => (throw e f, p')
      end
  | AtSleep =>
      (mkFrame (target f) (count f) (timeout f) (packet_size f)
               (times f) (lost f) (sent f) (S (iter f)) AtPing, p)
  | AtFinal =>
      match final_block w f p with
      | (Ok final_stats, p') => (goto (Returned final_stats) f, p')
      | (Raise e, p') => (goto (Raised e) f, p')
      end
  | Returned _ | Raised _ => c
  end.

Fixpoint steps (w : World) (n : nat) (c : Frame * Proc) : Frame * Proc :=
  match n with
  | O => c
  | S n' => steps w n' (step w c)
  end.

(** [SIGINT] arriving while [run_ping] is at the point [c]: the handler
    runs on the process state and what it raises surfaces there. *)
Definition deliver_sigint (c : Frame * Proc) : Frame * Proc :=
  let (f, p) := c in
  match sigint_handler p with
  | (Raise e, p') => (throw e f, p')
  | (Ok _, p') => (f, p')
  end.

(** Run until [run_ping] is left, for at most [fuel] steps. *)
Fixpoint exec (w : World) (fuel : nat) (c : Frame * Proc)
  : option (Frame * Proc) :=
  if running (fst c) then
    match fuel with
    | O => None
    | S fuel' => exec w fuel' (step w c)
    end
  else Some c.

Definition run_ping_init (target : string) (count : option Z) (timeout : Q)
    (packet_size : Z) : Frame :=
  mkFrame target count timeout packet_size [] 0 0 0%nat AtPing.

(** [run_ping(target, count, timeout, packet_size)] with no signal. *)
Definition run_ping (w : World) (fuel : nat) (target : string)
    (count : option Z) (timeout : Q) (packet_size : Z) (p : Proc)
  : option (res pyval * Proc) :=
  match exec w fuel (run_ping_init target count timeout packet_size, p) with
  | None => None
  | Some (f, p') =>
      match at_pc f with
      | Returned v => Some (Ok v, p')
      | Raised e => Some (Raise e, p')
      | _ => None
      end
  end.

(** ** The program *)

(** The parsed command line (after the interactive prompts, when the target
    was not given). *)
Record Args : Type := mkArgs {
  arg_target : string;
  arg_count : option Z;
  arg_timeout : Q;
  arg_packet_size : Z;
  arg_output : string;
  arg_directory : option string;
  arg_compare : option string
}.

Definition with_json (name : string) : string :=
  if Py.endswith name ".json" then name else name +:+ ".json".

(** [x or y] on an optional string: [None] and [''] are falsy. *)
Definition or_else (x : option string) (y : string) : string :=
  match x with
  | Some s => if String.eqb s "" then y else s
  | None => y
  end.

Definition out_file_of (a : Args) : string := with_json (arg_output a).

Definition save_path_of (w : World) (a : Args) : string :=
  Py.path_join (or_else (arg_directory a) (get_base_dir w)) (out_file_of a).

Definition comp_path_of (w : World) (a : Args) : string :=
  Py.path_join (or_else (arg_directory a) (get_base_dir w))
               (with_json (or_else (arg_compare a) (out_file_of a))).

(** [main]'s locals that outlive the call of [run_ping]. *)
Record Locals : Type := mkLocals {
  l_save_path : string;
  l_history : list pyval
}.

(** [main] up to the call of [run_ping]. *)
Definition main_setup (w : World) (a : Args) : M (Locals * Frame) :=
  dest <- match gethostbyname w (arg_target a) with
          | Some d => ret d
          | None => print (ResolveError (arg_target a)) ;; raise (SystemExit 1)
          end ;;
  let save_path := save_path_of w a in
  let comp_path := comp_path_of w a in
  history <- load_history comp_path dest ;;
  s <- read_slot ;;
  write_slot (mkSlot (stats s) (Some save_path) (Some history)) ;;
  ret (mkLocals save_path history,
       run_ping_init dest (arg_count a) (arg_timeout a) (arg_packet_size a)).

(** [main] from the moment [run_ping] is left. *)
Definition main_finish (l : Locals) (f : Frame) : M unit :=
  match at_pc f with
  | Returned stats =>
      print (Text "Final results:") ;;
      save_results stats (l_save_path l) ;;
      print_comparison stats (l_history l) ;;
      print_current_results stats
  | Raised e =>
      if is_Exception e then
        print (PingError e) ;;
        s <- read_slot ;;
        match stats s with
        | Some stats =>
            if Py.truthy stats then
              print (Text "Attempting to save partial results due to error...") ;;
              save_results stats (l_save_path l) ;;
              print_comparison stats (l_history l) ;;
              print_current_results stats
            else print (Text "No stats collected; nothing to save.")
        | None => print (Text "No stats collected; nothing to save.")
        end ;;
        raise (SystemExit 1)
      else raise e
  | _ => ret tt
  end.

(** How the interpreter ends: exit status 0 after a normal return, the
    code of [sys.exit], or a traceback for any other exception. *)
Inductive outcome : Type :=
  | Exit (status : Z)
  | Traceback (e : exn).

Definition outcome_of (r : res unit) : outcome :=
  match r with
  | Ok _ => Exit 0
  | Raise (SystemExit c) => Exit c
  | Raise e => Traceback e
  end.

(** One run of the program.  [sigint = Some i] delivers [SIGINT] once
    [run_ping] has made [i] steps, if it is still running then. *)
Definition main (w : World) (a : Args) (sigint : option nat) (fuel : nat)
    (p : Proc) : option (outcome * Proc) :=
  match main_setup w a p with
  | (Raise e, p1) => Some (outcome_of (Raise e), p1)
  | (Ok (l, f), p1) =>
      let c := match sigint with
               | None => (f, p1)
               | Some i =>
                   let c := steps w i (f, p1) in
                   if running (fst c) then deliver_sigint c else c
               end in
      match exec w fuel c with
      | None => None
      | Some (f', p2) =>
          let (r, p3) := main_finish l f' p2 in Some (outcome_of r, p3)
      end
  end.

Definition fresh_slot : Slot := mkSlot None None None.

(** The process as the interpreter starts it on the file system [files]. *)
Definition boot (files : gmap string file) : Proc :=
  mkProc files fresh_slot [] 0 0.

(** * Specification vocabulary *)

(** ** Snapshots *)

(** Reading a field of a snapshot. *)
Definition field (v : pyval) (k : string) : option pyval :=
  match v with
  | VDict d => Py.assoc k d
  | _ => None
  end.

Definition loss_of (sent lost : Z) : pyval :=
  if 0 <? sent then VFloat (inject_Z lost / inject_Z sent * 100)
  else VInt 100.

Definition latency_of (pick : Q -> list Q -> Q) (times : list Q) : pyval :=
  match times with
  | [] => VNone
  | x :: rest => VFloat (pick x rest)
  end.

Definition mean_of (x : Q) (rest : list Q) : Q :=
  (Py.Qsum (x :: rest) / inject_Z (Z.of_nat (length (x :: rest))))%Q.

(** The dict [stats_dict] builds, key by key. *)
Definition snapshot (target timestamp : string) (sent lost : Z)
    (times : list Q) : pyval :=
  VDict [("target", VStr target);
         ("timestamp", VStr timestamp);
         ("sent", VInt sent);
         ("received", VInt (sent - lost));
         ("loss_percent", loss_of sent lost);
         ("min", latency_of Py.min_from times);
         ("max", latency_of Py.max_from times);
         ("avg", latency_of mean_of times)].

(** The rule for [loss_percent]: the integer 100 when nothing was sent,
    [100 * (sent - received) / sent] otherwise. *)
Definition loss_percent_rule (v : pyval) : Prop :=
  exists sent received : Z,
    field v "sent" = Some (VInt sent) /\
    field v "received" = Some (VInt received) /\
    if sent =? 0 then field v "loss_percent" = Some (VInt 100)
    else exists q, field v "loss_percent" = Some (VFloat q) /\
                   (q == 100 * inject_Z (sent - received) / inject_Z sent)%Q.

(** ** The history file *)

(** The unfiltered load: the entries both [save_results] and
    [load_history] read from [path] before they append or select, with a
    missing or undecodable file read as no entries and a value that is
    not a list as one entry. *)
Definition load_all (path : string) (files : gmap string file) : list pyval :=
  match files !! path with
  | Some (Json v) => as_list v
  | _ => []
  end.

(** [p] after [save_results v path] wrote the file. *)
Definition stored (v : pyval) (path : string) (p : Proc) : Proc :=
  mkProc (<[path := Json (VList (load_all path (fs p) ++ [v]))]> (fs p))
         (save_on_interrupt p) (stdout p) (pings p) (ticks p).

(** ** Output *)

(** [p] after printing [lines]. *)
Definition emit (lines : list line) (p : Proc) : Proc :=
  mkProc (fs p) (save_on_interrupt p) (stdout p ++ lines) (pings p) (ticks p).

(** [prints P m]: whatever [m] returns or raises, all it does to the
    process is print lines, each satisfying [P]. *)
Definition prints {A} (P : line -> Prop) (m : M A) : Prop :=
  forall p, exists lines, snd (m p) = emit lines p /\ Forall P lines.

(** [says P m]: whatever else [m] does, the lines it adds to [stdout] all
    satisfy [P]. *)
Definition says {A} (P : line -> Prop) (m : M A) : Prop :=
  forall p, exists lines,
    stdout (snd (m p)) = stdout p ++ lines /\ Forall P lines.

(** A line the loop itself prints. *)
Definition loop_line (l : line) : Prop :=
  match l with
  | Text s => s = "Request timed out."
  | Reply _ _ => True
  | _ => False
  end.

(** What a step of the loop leaves alone: the files, the output path and
    the loaded history; it only adds its own lines to the output. *)
Definition extends (p p' : Proc) : Prop :=
  fs p' = fs p /\
  save_path (save_on_interrupt p') = save_path (save_on_interrupt p) /\
  history (save_on_interrupt p') = history (save_on_interrupt p) /\
  exists extra, stdout p' = stdout p ++ extra /\ Forall loop_line extra.

(** ** The comparison *)

(** The number a field holds; [None] for a missing key or a [None]. *)
Definition present (v : pyval) (k : string) : option Q :=
  match field v k with
  | Some x => option_map Py.num_Q (Py.as_num x)
  | None => None
  end.

(** A statistic of a run record is a number or absent. *)
Definition stat_ok (v : pyval) (k : string) : Prop :=
  match field v k with
  | None | Some VNone => True
  | Some x => Py.as_num x <> None
  end.

(** A [RunSnapshot]-shaped value: an object with a timestamp whose four
    statistics are numbers or absent. *)
Definition run_record (v : pyval) : Prop :=
  (exists d, v = VDict d) /\
  (exists ts, field v "timestamp" = Some ts) /\
  Forall (stat_ok v) fields.

(** What the comparison prints for one field of one earlier run: the
    difference [current - earlier] when both hold a number, "no data"
    when either is absent. *)
Definition reports_field (current prev : pyval) (k : string) (ln : line)
  : Prop :=
  match present current k, present prev k with
  | Some cur, Some old =>
      exists diff, ln = FieldDelta k old cur diff (unit_of k) /\
                   (diff == cur - old)%Q
  | _, _ => ln = FieldNoData k
  end.

(** What it prints for the [idx]-th earlier run: a heading with its
    timestamp, then one line per field. *)
Definition reports_entry (current : pyval) (e : nat * pyval)
    (block : list line) : Prop :=
  exists ts lines,
    field (snd e) "timestamp" = Some ts /\
    block = ComparisonNo (fst e) ts :: lines /\
    Forall2 (reports_field current (snd e)) fields lines.

(** What [print_comparison] prints. *)
Definition comparison_report (current : pyval) (history : list pyval)
    (report : list line) : Prop :=
  match history with
  | [] => report = [Text "No previous data for comparison."]
  | _ => exists blocks,
      report = Text "=== Historical Comparison ===" :: concat blocks /\
      Forall2 (reports_entry current) (enumerate 1 history) blocks
  end.

(** A heading of the comparison names an earlier run by its position in
    [h] and its timestamp there. *)
Definition cites (h : list pyval) (l : line) : Prop :=
  match l with
  | ComparisonNo idx ts =>
      exists e, (1 <= idx)%nat /\ h !! (idx - 1)%nat = Some e /\
                field e "timestamp" = Some ts
  | _ => True
  end.

(** The history [main] loads before the loop: the entries for the
    resolved address in the comparison file as it is when the process
    starts. *)
Definition history_at_start (w : World) (a : Args)
    (files : gmap string file) : list pyval :=
  match gethostbyname w (arg_target a) with
  | Some dest =>
      match fst (load_history (comp_path_of w a) dest (boot files)) with
      | Ok h => h
      | Raise _ => []
      end
  | None => []
  end.

(** ** The loop invariant

    One call [run_ping tgt cnt tmo psz], started when [base] probes had
    been sent before. *)

Section LoopModel.

Variable w : World.
Variables (tgt : string) (cnt : option Z) (tmo : Q) (psz : Z) (base : nat).

Definition answer (j : nat) : ping_result := ping w tgt tmo psz (base + j).

(** The latencies, in milliseconds, among the first [k] answers. *)
Fixpoint replies (k : nat) : list Q :=
  match k with
  | O => []
  | S k' => replies k' ++ match answer k' with
                          | Delay s => [(s * 1000)%Q]
                          | _ => []
                          end
  end.

(** The number of timeouts among the first [k] answers. *)
Fixpoint timeouts (k : nat) : Z :=
  match k with
  | O => 0
  | S k' => timeouts k' + match answer k' with NoReply => 1 | _ => 0 end
  end.

Definition answered (j : nat) : Prop :=
  match answer j with Raises _ => False | _ => True end.

(** Probes counted in [sent], recorded in [lost] or [times], and written
    to the checkpoint, at each point of the loop. *)
Definition counted (f : Frame) : nat :=
  (iter f + match at_pc f with
            | AtRecord _ | AtUpdate | AtSleep => 1
            | _ => 0
            end)%nat.

Definition pinged (f : Frame) : nat :=
  (iter f + match at_pc f with
            | AtCount _ | AtRecord _ | AtUpdate | AtSleep => 1
            | _ => 0
            end)%nat.

Definition recorded (f : Frame) : nat :=
  (iter f + match at_pc f with AtUpdate | AtSleep => 1 | _ => 0 end)%nat.

Definition checkpointed (f : Frame) : nat :=
  (iter f + match at_pc f with AtSleep => 1 | _ => 0 end)%nat.

Definition answer_of (r : option Q) : ping_result :=
  match r with Some s => Delay s | None => NoReply end.

Definition slot_inv (f : Frame) (p : Proc) : Prop :=
  match stats (save_on_interrupt p) with
  | None => checkpointed f = 0%nat /\ forall v, at_pc f <> Returned v
  | Some v =>
      (exists ts, v = snapshot tgt ts (Z.of_nat (checkpointed f))
                               (timeouts (checkpointed f))
                               (replies (checkpointed f))) /\
      forall v', at_pc f = Returned v' -> v' = v
  end.

Record inv (f : Frame) (p : Proc) : Prop := mkInv {
  inv_target : target f = tgt;
  inv_count : count f = cnt;
  inv_timeout : timeout f = tmo;
  inv_packet_size : packet_size f = psz;
  inv_sent : sent f = Z.of_nat (counted f);
  inv_lost : lost f = timeouts (recorded f);
  inv_times : times f = replies (recorded f);
  inv_answered : forall j, (j < recorded f)%nat -> answered j;
  inv_result : match at_pc f with
               | AtCount r | AtRecord r => answer (iter f) = answer_of r
               | _ => True
               end;
  inv_pings : in_try (at_pc f) = true -> pings p = (base + pinged f)%nat;
  inv_slot : slot_inv f p
}.

End LoopModel.

Arguments replies : simpl never.
Arguments timeouts : simpl never.

(** ** Concrete runs

    A transport answering 10 ms, timeout, 20 ms, timeout, 30 ms, ...; a
    host that resolves to [10.0.0.1]; a history file holding one earlier
    run against that address and one against another. *)

Definition demo_world : World :=
  mkWorld (fun host => if String.eqb host "nowhere" then None
                       else Some "10.0.0.1")
          "/srv"
          (fun _ _ _ n => match n with
                          | 0%nat => Delay (1 # 100)
                          | 1%nat => NoReply
                          | 2%nat => Delay (2 # 100)
                          | 3%nat => NoReply
                          | _ => Delay (3 # 100)
                          end)
          (fun n => match n with
                    | 0%nat => "T0" | 1%nat => "T1" | 2%nat => "T2"
                    | 3%nat => "T3" | 4%nat => "T4" | _ => "T5"
                    end).

Definition demo_args : Args :=
  mkArgs "host" (Some 5) 4 56 "ping_history" None None.

Definition demo_earlier : pyval :=
  VDict [("target", VStr "10.0.0.1"); ("timestamp", VStr "T-1");
         ("sent", VInt 5); ("received", VInt 4);
         ("loss_percent", VFloat 20); ("min", VFloat 9);
         ("max", VFloat 12); ("avg", VFloat 10)].

Definition demo_other : pyval :=
  VDict [("target", VStr "192.168.1.1"); ("timestamp", VStr "T-2");
         ("sent", VInt 0); ("received", VInt 0);
         ("loss_percent", VInt 100); ("min", VNone);
         ("max", VNone); ("avg", VNone)].

Definition demo_files : gmap string file :=
  {[ "/srv/ping_history.json" := Json (VList [demo_earlier; demo_other]) ]}.

(** The run of [run_ping] on the resolved address from a fresh process. *)
Definition demo_start : Frame * Proc :=
  (run_ping_init "10.0.0.1" (Some 5) 4 56, boot demo_files).


Definition demo_frame : Frame := run_ping_init "10.0.0.1" (Some 5) 4 56.

Definition demo_ready : Proc :=
  mkProc demo_files
         (mkSlot None (Some "/srv/ping_history.json") (Some [demo_earlier]))
         [] 0 0.

Definition demo_final : Proc :=
  match main demo_world demo_args None 30 (boot demo_files) with
  | Some (_, p) => p
  | None => boot demo_files
  end.

(** ** Further vocabulary *)

(** An object, as opposed to any other JSON value. *)
Definition is_dict (v : pyval) : bool :=
  match v with VDict _ => true | _ => false end.

(** The entry's [target] is the string [t]. *)
Definition targets (t : string) (e : pyval) : bool :=
  match field e "target" with
  | Some x => Py.eq_str x t
  | None => false
  end.

(** A number ([bool], [int] or [float]). *)
Definition is_num (x : pyval) : bool :=
  match Py.as_num x with Some _ => true | None => false end.

(** The value under a key of an object, [None] when the key is missing. *)
Definition value_of (v : pyval) (k : string) : pyval :=
  match field v k with Some x => x | None => VNone end.

(** The two values of a field can be compared: one is [None], or both are
    numbers. *)
Definition comparable (current prev : pyval) (k : string) : bool :=
  Py.is_None (value_of current k) || Py.is_None (value_of prev k)
  || (is_num (value_of current k) && is_num (value_of prev k)).

(** Why the comparison with one earlier entry fails, if it does: the entry
    is no object, it has no timestamp, or a field cannot be compared. *)
Definition entry_failure (current prev : pyval) : option exn :=
  match prev with
  | VDict _ =>
      match field prev "timestamp" with
      | None => Some KeyError
      | Some _ =>
          if forallb (comparable current prev) fields then None
          else Some TypeError
      end
  | _ => Some TypeError
  end.

(** The failure of the first entry that has one. *)
Fixpoint first_failure (current : pyval) (history : list pyval) : option exn :=
  match history with
  | [] => None
  | prev :: rest =>
      match entry_failure current prev with
      | Some e => Some e
      | None => first_failure current rest
      end
  end.

Definition outcome_of_failure (o : option exn) : res unit :=
  match o with None => Ok tt | Some e => Raise e end.

(** The [loss_percent] a snapshot displays. *)
Definition loss_Q (sent lost : Z) : Q :=
  if 0 <? sent then (inject_Z lost / inject_Z sent * 100)%Q else inject_Z 100.

(** The count lets the loop start a [k]-th round. *)
Definition allows (c : option Z) (k : nat) : Prop :=
  match c with
  | None => True
  | Some z => Z.of_nat k <= z
  end.

(** What [run_ping] gives on the demo transport, started as [main] starts
    it. *)
Definition demo_returned : res pyval * Proc :=
  match run_ping demo_world 30 "10.0.0.1" (Some 5) 4 56 demo_ready with
  | Some rp => rp
  | None => (Raise OSError, demo_ready)
  end.

(** Transports that answer the first probe and then raise, and one that
    raises at once. *)
Definition demo_interrupted : World :=
  mkWorld (gethostbyname demo_world) "/srv"
          (fun _ _ _ n => match n with
                          | 0%nat => Delay (1 # 100)
                          | _ => Raises KeyboardInterrupt
                          end)
          (now demo_world).

Definition demo_failing : World :=
  mkWorld (gethostbyname demo_world) "/srv"
          (fun _ _ _ n => match n with
                          | 0%nat => Delay (1 # 100)
                          | _ => Raises OSError
                          end)
          (now demo_world).

Definition demo_unreachable : World :=
  mkWorld (gethostbyname demo_world) "/srv"
          (fun _ _ _ _ => Raises OSError)
          (now demo_world).

(** A history file whose entry for the address has no [timestamp]. *)
Definition demo_untimed : pyval :=
  VDict [("target", VStr "10.0.0.1"); ("sent", VInt 5)].

Definition demo_untimed_files : gmap string file :=
  {[ "/srv/ping_history.json" := Json (VList [demo_untimed]) ]}.

Definition demo_untimed_ready : Proc :=
  mkProc demo_untimed_files
         (mkSlot None (Some "/srv/ping_history.json") (Some [demo_untimed]))
         [] 0 0.

Definition demo_untimed_locals : Locals :=
  mkLocals "/srv/ping_history.json" [demo_untimed].

(** * Properties *)

(** ** Aggregate statistics *)

(** Building a snapshot raises nothing: the division is guarded by
    [sent > 0] and the three statistics by [if times]. *)
Lemma stats_dict_snapshot target ts sent lost times :
  stats_dict target ts sent lost times = Ok (snapshot target ts sent lost times).
Proof.
  unfold stats_dict, snapshot, loss_of, Py.truediv.
  destruct (0 <? sent) eqn:Hpos.
  - apply Z.ltb_lt in Hpos.
    replace (sent =? 0) with false by (symmetry; apply Z.eqb_neq; lia).
    destruct times; reflexivity.
  - destruct times; reflexivity.
Qed.

Lemma Qlt_bool_true x y : Py.Qlt_bool x y = true -> (x < y)%Q.
Proof.
  unfold Py.Qlt_bool. intros H. apply negb_true_iff in H.
  apply Qnot_le_lt. intros Hle. apply Qle_bool_iff in Hle. congruence.
Qed.

Lemma Qlt_bool_false x y : Py.Qlt_bool x y = false -> (y <= x)%Q.
Proof.
  unfold Py.Qlt_bool. intros H. apply negb_false_iff in H.
  now apply Qle_bool_iff.
Qed.

Lemma min_from_le_best l : forall best, (Py.min_from best l <= best)%Q.
Proof.
  induction l as [|x l IH]; intros best; simpl.
  - apply Qle_refl.
  - destruct (Py.Qlt_bool x best) eqn:E.
    + apply Qlt_bool_true in E. specialize (IH x). lra.
    + apply IH.
Qed.

Lemma min_from_le_all l :
  forall best x, In x l -> (Py.min_from best l <= x)%Q.
Proof.
  induction l as [|y l IH]; intros best x Hin; simpl in *; [tauto|].
  destruct Hin as [->|Hin]; [|now apply IH].
  destruct (Py.Qlt_bool x best) eqn:E.
  - apply min_from_le_best.
  - apply Qlt_bool_false in E.
    pose proof (min_from_le_best l best). lra.
Qed.

Lemma max_from_ge_best l : forall best, (best <= Py.max_from best l)%Q.
Proof.
  induction l as [|x l IH]; intros best; simpl.
  - apply Qle_refl.
  - destruct (Py.Qlt_bool best x) eqn:E.
    + apply Qlt_bool_true in E. specialize (IH x). lra.
    + apply IH.
Qed.

Lemma max_from_ge_all l :
  forall best x, In x l -> (x <= Py.max_from best l)%Q.
Proof.
  induction l as [|y l IH]; intros best x Hin; simpl in *; [tauto|].
  destruct Hin as [->|Hin]; [|now apply IH].
  destruct (Py.Qlt_bool best x) eqn:E.
  - apply max_from_ge_best.
  - apply Qlt_bool_false in E.
    pose proof (max_from_ge_best l best). lra.
Qed.

Lemma fold_Qplus_shift l : forall a, (fold_left Qplus l a == a + Py.Qsum l)%Q.
Proof.
  unfold Py.Qsum.
  induction l as [|x l IH]; intros a; simpl.
  - lra.
  - rewrite (IH (a + x)%Q), (IH (0 + x)%Q). lra.
Qed.

Lemma Qsum_cons x l : (Py.Qsum (x :: l) == x + Py.Qsum l)%Q.
Proof.
  unfold Py.Qsum at 1. simpl. rewrite fold_Qplus_shift. lra.
Qed.

(** A sum of [n] numbers between [lo] and [hi] lies between [n * lo] and
    [n * hi]. *)
Lemma Qsum_bounds lo hi l :
  (forall x, In x l -> (lo <= x <= hi)%Q) ->
  (inject_Z (Z.of_nat (length l)) * lo <= Py.Qsum l
   <= inject_Z (Z.of_nat (length l)) * hi)%Q.
Proof.
  induction l as [|x l IH]; intros Hall.
  - change (length (@nil Q)) with 0%nat.
    change (inject_Z (Z.of_nat 0)) with 0%Q. unfold Py.Qsum. simpl. lra.
  - rewrite Qsum_cons.
    replace (length (x :: l)) with (S (length l)) by reflexivity.
    rewrite Nat2Z.inj_succ. unfold Z.succ. rewrite inject_Z_plus.
    destruct (Hall x (or_introl eq_refl)) as [Hlo Hhi].
    destruct IH as [IHlo IHhi]; [intros y Hy; apply Hall; now right|].
    change (inject_Z 1) with 1%Q. rewrite !Qmult_plus_distr_l.
    set (nlo := (inject_Z (Z.of_nat (length l)) * lo)%Q) in *.
    set (nhi := (inject_Z (Z.of_nat (length l)) * hi)%Q) in *.
    lra.
Qed.

Lemma mean_between x rest :
  (Py.min_from x rest <= mean_of x rest <= Py.max_from x rest)%Q.
Proof.
  unfold mean_of.
  assert (Hn : (0 < inject_Z (Z.of_nat (length (x :: rest))))%Q).
  { rewrite <- (Zlt_Qlt 0). simpl length. lia. }
  destruct (Qsum_bounds (Py.min_from x rest) (Py.max_from x rest) (x :: rest))
    as [Hlo Hhi].
  { intros y [<-|Hy]; split.
    - apply min_from_le_best.
    - apply max_from_ge_best.
    - now apply min_from_le_all.
    - now apply max_from_ge_all. }
  split.
  - apply Qle_shift_div_l; [exact Hn|]. lra.
  - apply Qle_shift_div_r; [exact Hn|]. lra.
Qed.

(** ** The probe loop *)

Lemma update_interim_run w f p :
  update_interim w f p =
  (Ok tt,
   mkProc (fs p)
          (mkSlot (Some (snapshot (target f) (now w (ticks p)) (sent f)
                                  (lost f) (times f)))
                  (save_path (save_on_interrupt p))
                  (history (save_on_interrupt p)))
          (stdout p) (pings p) (S (ticks p))).
Proof.
  unfold update_interim, bind, timestamp_now, lift, set_stats, bind,
    read_slot, write_slot.
  rewrite stats_dict_snapshot. reflexivity.
Qed.

Lemma final_block_run w f p :
  final_block w f p =
  (Ok (snapshot (target f) (now w (ticks p)) (sent f) (lost f) (times f)),
   mkProc (fs p)
          (mkSlot (Some (snapshot (target f) (now w (ticks p)) (sent f)
                                  (lost f) (times f)))
                  (save_path (save_on_interrupt p))
                  (history (save_on_interrupt p)))
          (stdout p) (pings p) (S (ticks p))).
Proof.
  unfold final_block, bind, timestamp_now, lift, set_stats, bind,
    read_slot, write_slot, ret.
  rewrite stats_dict_snapshot. reflexivity.
Qed.

Lemma steps_S w n c : steps w (S n) c = step w (steps w n c).
Proof.
  revert c. induction n as [|n IH]; intros c; [reflexivity|].
  change (steps w (S (S n)) c) with (steps w (S n) (step w c)).
  rewrite IH. reflexivity.
Qed.

Lemma extends_refl p : extends p p.
Proof.
  repeat split. exists []. split; [now rewrite app_nil_r|constructor].
Qed.

Lemma extends_trans p1 p2 p3 : extends p1 p2 -> extends p2 p3 -> extends p1 p3.
Proof.
  intros (Hf & Hs & Hh & e1 & Ho & He1) (Hf' & Hs' & Hh' & e2 & Ho' & He2).
  repeat split; try congruence.
  exists (e1 ++ e2). split.
  - rewrite Ho', Ho. now rewrite app_assoc.
  - now apply Forall_app.
Qed.

Ltac silent_step :=
  repeat split; exists []; split; [symmetry; apply app_nil_r|constructor].

Lemma step_extends w f p : extends p (snd (step w (f, p))).
Proof.
  unfold step.
  destruct (at_pc f) as [|r|[s|]| | | | |] eqn:Hpc; simpl;
    try apply extends_refl.
  - destruct (loop_done f); [apply extends_refl|].
    destruct (ping w _ _ _ _); simpl; silent_step.
  - repeat split. eexists. split; [reflexivity|]. repeat constructor.
  - repeat split. eexists. split; [reflexivity|]. now repeat constructor.
  - rewrite update_interim_run. simpl. silent_step.
  - rewrite final_block_run. simpl. silent_step.
Qed.

Lemma steps_extends w n : forall f p, extends p (snd (steps w n (f, p))).
Proof.
  induction n as [|n IH]; intros f p.
  - apply extends_refl.
  - rewrite steps_S. destruct (steps w n (f, p)) as [f' p'] eqn:E.
    specialize (IH f p). rewrite E in IH.
    eapply extends_trans; [exact IH|apply step_extends].
Qed.

(** *** The loop invariant is kept *)

Section LoopInvariant.

Variable w : World.
Variables (tgt : string) (cnt : option Z) (tmo : Q) (psz : Z) (base : nat).

Lemma inv_init p :
  pings p = base -> stats (save_on_interrupt p) = None ->
  inv w tgt cnt tmo psz base (run_ping_init tgt cnt tmo psz) p.
Proof.
  intros Hb Hs. constructor; simpl; try reflexivity.
  - intros j Hj. unfold recorded in Hj. simpl in Hj. lia.
  - intros _. unfold pinged. simpl. lia.
  - unfold slot_inv. rewrite Hs. split; [reflexivity|discriminate].
Qed.

Lemma replies_S k :
  replies w tgt tmo psz base (S k)
  = replies w tgt tmo psz base k
    ++ match answer w tgt tmo psz base k with
       | Delay s => [(s * 1000)%Q]
       | _ => []
       end.
Proof. reflexivity. Qed.

Lemma timeouts_S k :
  timeouts w tgt tmo psz base (S k)
  = timeouts w tgt tmo psz base k
    + match answer w tgt tmo psz base k with NoReply => 1 | _ => 0 end.
Proof. reflexivity. Qed.

Lemma slot_inv_keep f f' p p' :
  stats (save_on_interrupt p') = stats (save_on_interrupt p) ->
  checkpointed f' = checkpointed f ->
  (forall v, at_pc f' <> Returned v) ->
  slot_inv w tgt tmo psz base f p -> slot_inv w tgt tmo psz base f' p'.
Proof.
  unfold slot_inv. intros -> -> Hnr H.
  destruct (stats (save_on_interrupt p)) as [v|].
  - destruct H as [H _]. split; [exact H|]. intros v' Hv'. now destruct (Hnr v').
  - destruct H as [H _]. split; [exact H|exact Hnr].
Qed.

Ltac inv_fields H :=
  destruct H as [Htg Hct Hto Hps Hsent Hlost Htimes Hans Hres Hpings Hslot];
  unfold counted, recorded, pinged in *.

(** Opens the invariant of the state after a step; the clauses the step
    does not touch are closed at once. *)
Ltac inv_after Hpings :=
  constructor; unfold counted, recorded, pinged; simpl;
  try (intros _; rewrite ?Hpings by reflexivity; lia); auto.

Ltac keep_slot f p Hpc Hslot :=
  apply (slot_inv_keep f _ p);
  [reflexivity
  |unfold checkpointed; rewrite Hpc; simpl; lia
  |intros ?; simpl; discriminate
  |exact Hslot].

Lemma inv_step f p :
  inv w tgt cnt tmo psz base f p ->
  inv w tgt cnt tmo psz base (fst (step w (f, p))) (snd (step w (f, p))).
Proof.
  intros H. unfold step.
  destruct (at_pc f) as [|r|[s|]| | | |v|e] eqn:Hpc.
  - (* about to ping *)
    inv_fields H. rewrite Hpc in *.
    destruct (loop_done f).
    { inv_after Hpings. keep_slot f p Hpc Hslot. }
    assert (Hp : pings p = (base + iter f)%nat)
      by (rewrite Hpings by reflexivity; lia).
    rewrite Htg, Hto, Hps, Hp. fold (answer w tgt tmo psz base (iter f)).
    destruct (answer w tgt tmo psz base (iter f)) as [s| |e] eqn:Ha; simpl.
    + inv_after Hpings. keep_slot f p Hpc Hslot.
    + inv_after Hpings. keep_slot f p Hpc Hslot.
    + assert (Hgo : forall l, l = AtFinal \/ l = Raised e ->
                inv w tgt cnt tmo psz base (goto l f)
                    (mkProc (fs p) (save_on_interrupt p) (stdout p)
                            (S (base + iter f)) (ticks p))).
      { intros l Hl. inv_after Hpings;
          try (destruct Hl as [-> | ->]; simpl; now auto).
        apply (slot_inv_keep f _ p);
          [reflexivity
          |unfold checkpointed; rewrite Hpc; destruct Hl as [-> | ->];
           simpl; lia
          |intros ?; destruct Hl as [-> | ->]; simpl; discriminate
          |exact Hslot]. }
      unfold throw. rewrite Hpc. simpl.
      destruct e; apply Hgo; auto.
  - (* sent += 1 *)
    inv_fields H. rewrite Hpc in *. simpl. inv_after Hpings.
    + rewrite Hsent. lia.
    + keep_slot f p Hpc Hslot.
  - (* a reply *)
    inv_fields H. rewrite Hpc in *. simpl. inv_after Hpings.
    + rewrite Hlost, !Nat.add_0_r, Nat.add_1_r, timeouts_S, Hres. simpl. lia.
    + rewrite Htimes, !Nat.add_0_r, Nat.add_1_r, replies_S, Hres.
      reflexivity.
    + intros j Hj. destruct (decide (j = iter f)) as [->|Hne].
      * unfold answered. now rewrite Hres.
      * apply Hans. lia.
    + keep_slot f p Hpc Hslot.
  - (* a timeout *)
    inv_fields H. rewrite Hpc in *. simpl. inv_after Hpings.
    + rewrite Hlost, !Nat.add_0_r, Nat.add_1_r, timeouts_S, Hres.
      reflexivity.
    + rewrite Htimes, !Nat.add_0_r, Nat.add_1_r, replies_S, Hres. simpl.
      now rewrite app_nil_r.
    + intros j Hj. destruct (decide (j = iter f)) as [->|Hne].
      * unfold answered. now rewrite Hres.
      * apply Hans. lia.
    + keep_slot f p Hpc Hslot.
  - (* update_interim() *)
    rewrite update_interim_run.
    inv_fields H. rewrite Hpc in *. simpl. inv_after Hpings.
    unfold slot_inv, checkpointed. simpl. split; [|discriminate].
    exists (now w (ticks p)). now rewrite Htg, Hsent, Hlost, Htimes.
  - (* time.sleep(1) *)
    inv_fields H. rewrite Hpc in *. simpl. inv_after Hpings.
    + rewrite Hsent. f_equal. lia.
    + rewrite Hlost. f_equal. lia.
    + rewrite Htimes. f_equal. lia.
    + intros j Hj. apply Hans. lia.
    + keep_slot f p Hpc Hslot.
  - (* the final block *)
    rewrite final_block_run.
    inv_fields H. rewrite Hpc in *. simpl. inv_after Hpings.
    unfold slot_inv, checkpointed. simpl. split; [|congruence].
    exists (now w (ticks p)). rewrite Htg, Hsent, Hlost, Htimes.
    now rewrite !Nat.add_0_r.
  - simpl. exact H.
  - simpl. exact H.
Qed.

Lemma inv_steps n : forall f p,
  inv w tgt cnt tmo psz base f p ->
  inv w tgt cnt tmo psz base (fst (steps w n (f, p))) (snd (steps w n (f, p))).
Proof.
  induction n as [|n IH]; intros f p H; [exact H|].
  rewrite steps_S.
  specialize (IH f p H). destruct (steps w n (f, p)) as [f' p'].
  now apply inv_step.
Qed.

End LoopInvariant.

Lemma timeouts_range w t to ps b k :
  0 <= timeouts w t to ps b k <= Z.of_nat k.
Proof.
  induction k as [|k IH]; [unfold timeouts; lia|].
  rewrite timeouts_S. destruct (answer w t to ps b k); lia.
Qed.

(** Every answered probe is either a timeout or a reply. *)
Lemma replies_timeouts w t to ps b k :
  (forall j, (j < k)%nat -> answered w t to ps b j) ->
  Z.of_nat k = timeouts w t to ps b k + Z.of_nat (length (replies w t to ps b k)).
Proof.
  induction k as [|k IH]; intros Hall; [reflexivity|].
  rewrite timeouts_S, replies_S, length_app.
  specialize (IH (fun j Hj => Hall j (Nat.lt_lt_succ_r _ _ Hj))).
  specialize (Hall k (Nat.lt_succ_diag_r k)). unfold answered in Hall.
  destruct (answer w t to ps b k); simpl length; [lia|lia|contradiction].
Qed.

(** The invariant at every point [run_ping] reaches from a fresh
    checkpoint slot. *)
Lemma run_ping_inv w t c to ps p n :
  stats (save_on_interrupt p) = None ->
  inv w t c to ps (pings p)
      (fst (steps w n (run_ping_init t c to ps, p)))
      (snd (steps w n (run_ping_init t c to ps, p))).
Proof.
  intros Hs. apply inv_steps. now apply inv_init.
Qed.

(** A snapshot held in the slot, or returned, was built from the counters
    as they stood after [checkpointed] probes. *)
Lemma produced_snapshot w t c to ps b f p v :
  inv w t c to ps b f p ->
  stats (save_on_interrupt p) = Some v \/ at_pc f = Returned v ->
  exists ts, v = snapshot t ts (Z.of_nat (checkpointed f))
                          (timeouts w t to ps b (checkpointed f))
                          (replies w t to ps b (checkpointed f)).
Proof.
  intros H Hv. pose proof (inv_slot _ _ _ _ _ _ _ _ H) as Hslot.
  unfold slot_inv in Hslot.
  destruct (stats (save_on_interrupt p)) as [v0|].
  - destruct Hslot as [Hsnap Hret].
    destruct Hv as [Hv|Hv]; [now inversion Hv; subst|].
    now rewrite (Hret v Hv).
  - destruct Hslot as [_ Hnr]. destruct Hv as [Hv|Hv]; [discriminate|].
    now destruct (Hnr v).
Qed.

(** ** C1: the loss percentage *)

(** C1.  At every point [run_ping] reaches, the snapshot held in the
    checkpoint slot (each interim one) and the dict it returns (the final
    one) have [loss_percent] equal to the integer 100 when [sent] is 0 and
    to [100 * (sent - received) / sent] otherwise. *)
Theorem loss_percent_of_every_snapshot w t c to ps p n v :
  stats (save_on_interrupt p) = None ->
  stats (save_on_interrupt (snd (steps w n (run_ping_init t c to ps, p))))
    = Some v \/
  at_pc (fst (steps w n (run_ping_init t c to ps, p))) = Returned v ->
  loss_percent_rule v.
Proof.
  intros Hs Hv.
  destruct (produced_snapshot _ _ _ _ _ _ _ _ _ (run_ping_inv w t c to ps p n Hs) Hv)
    as [ts ->].
  set (k := checkpointed _).
  exists (Z.of_nat k), (Z.of_nat k - timeouts w t to ps (pings p) k).
  split; [reflexivity|]. split; [reflexivity|].
  cbn [field snapshot Py.assoc String.eqb Ascii.eqb Bool.eqb]. unfold loss_of.
  destruct (Z.of_nat k =? 0) eqn:Hz.
  - apply Z.eqb_eq in Hz. now rewrite Hz.
  - apply Z.eqb_neq in Hz.
    replace (0 <? Z.of_nat k) with true by (symmetry; apply Z.ltb_lt; lia).
    eexists. split; [reflexivity|].
    replace (Z.of_nat k - (Z.of_nat k - timeouts w t to ps (pings p) k))
      with (timeouts w t to ps (pings p) k) by lia.
    field. intros Hq. apply Hz.
    apply (inject_Z_injective (Z.of_nat k) 0). exact Hq.
Qed.

Lemma loss_percent_of_every_snapshot_witness :
  loss_percent_rule
    (snapshot "10.0.0.1" "T2" 3 1 [(1 # 100) * 1000; (2 # 100) * 1000]%Q).
Proof.
  apply (loss_percent_of_every_snapshot demo_world "10.0.0.1" (Some 5) 4 56
           (boot demo_files) 14).
  - reflexivity.
  - left. vm_compute. reflexivity.
Defined.

(** ** C2: received, sent and lost *)

(** C2.  At every point [run_ping] reaches, the counters satisfy
    [0 <= sent - lost <= sent]; a snapshot in the slot or returned has
    [received = sent - lost] for the counters it was built from, with
    [0 <= received <= sent]; and right after it was built ([update_interim]
    just ran, or [run_ping] returned) these are the current counters. *)
Theorem received_is_sent_minus_lost w t c to ps p n v :
  stats (save_on_interrupt p) = None ->
  stats (save_on_interrupt (snd (steps w n (run_ping_init t c to ps, p))))
    = Some v \/
  at_pc (fst (steps w n (run_ping_init t c to ps, p))) = Returned v ->
  let f := fst (steps w n (run_ping_init t c to ps, p)) in
  0 <= sent f - lost f <= sent f /\
  exists s l : Z,
    field v "sent" = Some (VInt s) /\
    field v "received" = Some (VInt (s - l)) /\
    0 <= s - l <= s /\
    (at_pc f = AtSleep \/ at_pc f = Returned v -> s = sent f /\ l = lost f).
Proof.
  intros Hs Hv f.
  pose proof (run_ping_inv w t c to ps p n Hs) as H. fold f in H.
  destruct (produced_snapshot _ _ _ _ _ _ _ _ _ H Hv) as [ts ->].
  pose proof (inv_sent _ _ _ _ _ _ _ _ H) as Hsent.
  pose proof (inv_lost _ _ _ _ _ _ _ _ H) as Hlost.
  split.
  - rewrite Hsent, Hlost.
    pose proof (timeouts_range w t to ps (pings p) (recorded f)).
    assert (recorded f <= counted f)%nat
      by (unfold recorded, counted; destruct (at_pc f); lia).
    lia.
  - exists (Z.of_nat (checkpointed f)),
           (timeouts w t to ps (pings p) (checkpointed f)).
    split; [reflexivity|]. split; [reflexivity|]. split.
    + pose proof (timeouts_range w t to ps (pings p) (checkpointed f)). lia.
    + rewrite Hsent, Hlost. unfold counted, recorded, checkpointed.
      intros [-> | ->]; split; reflexivity.
Qed.

Lemma received_is_sent_minus_lost_witness :
  let f := fst (steps demo_world 14 demo_start) in
  0 <= sent f - lost f <= sent f /\
  exists s l : Z,
    field (snapshot "10.0.0.1" "T2" 3 1 [(1 # 100) * 1000; (2 # 100) * 1000]%Q)
          "sent" = Some (VInt s) /\
    field (snapshot "10.0.0.1" "T2" 3 1 [(1 # 100) * 1000; (2 # 100) * 1000]%Q)
          "received" = Some (VInt (s - l)) /\
    0 <= s - l <= s /\
    (at_pc f = AtSleep \/
     at_pc f = Returned (snapshot "10.0.0.1" "T2" 3 1
                                  [(1 # 100) * 1000; (2 # 100) * 1000]%Q) ->
     s = sent f /\ l = lost f).
Proof.
  apply (received_is_sent_minus_lost demo_world "10.0.0.1" (Some 5) 4 56
           (boot demo_files) 14).
  - reflexivity.
  - left. vm_compute. reflexivity.
Defined.

(** ** C6: minimum, maximum and mean latency *)

(** C6.  A snapshot in the slot or returned was built after
    [checkpointed] probes; with [samples] the latencies of the replies
    among them, [min], [max] and [avg] are all [None] exactly when
    [samples] is empty, and otherwise they are numbers with [avg] the sum
    of [samples] over their number and [min <= avg <= max]. *)
Theorem latency_statistics w t c to ps p n v :
  stats (save_on_interrupt p) = None ->
  stats (save_on_interrupt (snd (steps w n (run_ping_init t c to ps, p))))
    = Some v \/
  at_pc (fst (steps w n (run_ping_init t c to ps, p))) = Returned v ->
  let f := fst (steps w n (run_ping_init t c to ps, p)) in
  let samples := replies w t to ps (pings p) (checkpointed f) in
  (samples = [] <->
   field v "min" = Some VNone /\ field v "max" = Some VNone /\
   field v "avg" = Some VNone) /\
  (samples <> [] ->
   exists mn mx av : Q,
     field v "min" = Some (VFloat mn) /\ field v "max" = Some (VFloat mx) /\
     field v "avg" = Some (VFloat av) /\
     (av == Py.Qsum samples / inject_Z (Z.of_nat (length samples)))%Q /\
     (mn <= av <= mx)%Q).
Proof.
  intros Hs Hv f samples.
  pose proof (run_ping_inv w t c to ps p n Hs) as H. fold f in H.
  destruct (produced_snapshot _ _ _ _ _ _ _ _ _ H Hv) as [ts ->].
  fold samples. destruct samples as [|x rest]; split.
  - split; [intros _; repeat split; reflexivity|reflexivity].
  - intros Hne. now destruct Hne.
  - split; [discriminate|]. intros [Hmin _]. discriminate Hmin.
  - intros _. exists (Py.min_from x rest), (Py.max_from x rest), (mean_of x rest).
    repeat split; try reflexivity; apply mean_between.
Qed.

Lemma latency_statistics_witness :
  let f := fst (steps demo_world 14 demo_start) in
  let samples := replies demo_world "10.0.0.1" 4 56 0 (checkpointed f) in
  let v := snapshot "10.0.0.1" "T2" 3 1 [(1 # 100) * 1000; (2 # 100) * 1000]%Q in
  (samples = [] <->
   field v "min" = Some VNone /\ field v "max" = Some VNone /\
   field v "avg" = Some VNone) /\
  (samples <> [] ->
   exists mn mx av : Q,
     field v "min" = Some (VFloat mn) /\ field v "max" = Some (VFloat mx) /\
     field v "avg" = Some (VFloat av) /\
     (av == Py.Qsum samples / inject_Z (Z.of_nat (length samples)))%Q /\
     (mn <= av <= mx)%Q).
Proof.
  apply (latency_statistics demo_world "10.0.0.1" (Some 5) 4 56
           (boot demo_files) 14).
  - reflexivity.
  - left. vm_compute. reflexivity.
Defined.

(** The five-probe scenario: two timeouts and replies of 10, 20 and 30 ms
    give [sent = 5], [received = 3], a loss of 40 percent and latencies
    10, 30 and 20. *)
Example five_probes :
  exists p v,
    run_ping demo_world 30 "10.0.0.1" (Some 5) 4 56 (boot demo_files)
      = Some (Ok v, p) /\
    field v "sent" = Some (VInt 5) /\ field v "received" = Some (VInt 3) /\
    (exists q, field v "loss_percent" = Some (VFloat q) /\ (q == 40)%Q) /\
    (exists q, field v "min" = Some (VFloat q) /\ (q == 10)%Q) /\
    (exists q, field v "max" = Some (VFloat q) /\ (q == 30)%Q) /\
    (exists q, field v "avg" = Some (VFloat q) /\ (q == 20)%Q).
Proof.
  eexists. eexists. split; [vm_compute; reflexivity|].
  repeat split; try reflexivity; eexists; split; reflexivity.
Qed.

(** ** C8: no probes requested *)

(** C8.  [run_ping] with [count = 0] is over after two steps (the loop
    test and the final block): it calls [ping] not once, raises nothing,
    and returns [sent = 0], [received = 0], [loss_percent = 100] and
    [min], [max], [avg] all [None]. *)
Theorem count_zero_snapshot w t to ps p fuel :
  run_ping w (S (S fuel)) t (Some 0) to ps p =
  Some (Ok (VDict [("target", VStr t);
                   ("timestamp", VStr (now w (ticks p)));
                   ("sent", VInt 0);
                   ("received", VInt 0);
                   ("loss_percent", VInt 100);
                   ("min", VNone); ("max", VNone); ("avg", VNone)]),
        mkProc (fs p)
               (mkSlot (Some (VDict [("target", VStr t);
                                     ("timestamp", VStr (now w (ticks p)));
                                     ("sent", VInt 0);
                                     ("received", VInt 0);
                                     ("loss_percent", VInt 100);
                                     ("min", VNone); ("max", VNone);
                                     ("avg", VNone)]))
                       (save_path (save_on_interrupt p))
                       (history (save_on_interrupt p)))
               (stdout p) (pings p) (S (ticks p))).
Proof.
  unfold run_ping, run_ping_init.
  change (exec w (S (S fuel)) ?c) with (exec w fuel (step w (step w c))).
  destruct fuel; reflexivity.
Qed.

(** ** History store *)

Lemma select_target_raises target entries e :
  select_target target entries = Raise e -> e = AttributeError.
Proof.
  induction entries as [|x rest IH]; simpl; [discriminate|].
  destruct x; simpl; try (now intros [= <-]).
  destruct (select_target target rest) as [tl|e']; simpl; [discriminate|].
  intros [= <-]. now apply IH.
Qed.

(** [load_history] selects the target's entries from the unfiltered
    load; it changes nothing. *)
Lemma load_history_select path target p :
  load_history path target p =
  (select_target target (load_all path (fs p)), p).
Proof.
  unfold load_history, try_except, bind, open_read, lift, load_all.
  destruct (fs p !! path) as [[|v]|]; simpl; try reflexivity.
  destruct (select_target target (as_list v)) as [l|e] eqn:E; [reflexivity|].
  now rewrite (select_target_raises _ _ _ E).
Qed.

(** [save_results] rewrites the file with the unfiltered load followed by
    the new record, and reports it. *)
Lemma save_results_run v path p :
  save_results v path p =
  (Ok tt,
   mkProc (<[path := Json (VList (load_all path (fs p) ++ [v]))]> (fs p))
          (save_on_interrupt p) (stdout p ++ [ResultsSaved path])
          (pings p) (ticks p)).
Proof.
  unfold save_results, bind, os_path_exists, try_except, open_read, lift,
    json_dump, print, ret, load_all.
  destruct (fs p !! path) as [[|x]|] eqn:E; simpl; rewrite ?E; reflexivity.
Qed.

Lemma load_all_insert path v (files : gmap string file) :
  load_all path (<[path := Json (VList v)]> files) = v.
Proof. unfold load_all. now rewrite lookup_insert_eq. Qed.

Lemma load_all_insert_ne path path' x (files : gmap string file) :
  path <> path' ->
  load_all path' (<[path := x]> files) = load_all path' files.
Proof. intros Hne. unfold load_all. now rewrite lookup_insert_ne. Qed.

(** ** C4: loading a missing or malformed history file *)



(** A file that decodes but holds an entry that is no object is neither
    missing nor malformed: the selection raises [AttributeError]. *)
Example load_history_non_object :
  fst (load_history "h.json" "10.0.0.1" (boot {[ "h.json" := Json (VList [VInt 1]) ]}))
  = Raise AttributeError.
Proof. vm_compute. reflexivity. Qed.

(** ** C5: appending records *)

Lemma for_each_cons_ok {A} (x : A) l body p q :
  body x p = (Ok tt, q) -> for_each (x :: l) body p = for_each l body q.
Proof. intros H. cbn [for_each]. unfold bind. now rewrite H. Qed.


(** Two equal records appended to a file that held one value which is not
    a list: three entries. *)
Example append_twice :
  load_all "h.json"
    (fs (snd (for_each [demo_other; demo_other]
                       (fun s => save_results s "h.json")
                       (boot {[ "h.json" := Json demo_earlier ]}))))
  = [demo_earlier; demo_other; demo_other].
Proof. vm_compute. reflexivity. Qed.

(** ** Comparator *)

Lemma emit_nil p : emit [] p = p.
Proof. destruct p. unfold emit. simpl. now rewrite app_nil_r. Qed.

Lemma emit_emit l1 l2 p : emit l2 (emit l1 p) = emit (l1 ++ l2) p.
Proof. unfold emit. simpl. now rewrite app_assoc. Qed.

Lemma print_emit l p : print l p = (Ok tt, emit [l] p).
Proof. reflexivity. Qed.

(** A loop whose every round prints a block and raises nothing prints
    the blocks in order. *)
Lemma for_each_emit {A} (R : A -> list line -> Prop) (body : A -> M unit) l :
  Forall (fun x => forall p, exists b, body x p = (Ok tt, emit b p) /\ R x b) l ->
  forall p, exists blocks,
    for_each l body p = (Ok tt, emit (concat blocks) p) /\ Forall2 R l blocks.
Proof.
  induction 1 as [|x l Hx _ IH]; intros p.
  - exists []. split; [|constructor]. simpl. now rewrite emit_nil.
  - destruct (Hx p) as (b & Hb & HR).
    destruct (IH (emit b p)) as (bs & Hbs & HRs).
    exists (b :: bs). split; [|now constructor].
    rewrite (for_each_cons_ok _ _ _ _ _ Hb), Hbs. simpl. now rewrite emit_emit.
Qed.

Lemma format_f_num x n : Py.as_num x = Some n -> Py.format_f x = Ok (Py.num_Q n).
Proof. destruct x; simpl; intros [= <-]; reflexivity. Qed.

Lemma sub_num x y n m :
  Py.as_num x = Some n -> Py.as_num y = Some m ->
  exists d k, Py.sub x y = Ok d /\ Py.as_num d = Some k /\
              (Py.num_Q k == Py.num_Q n - Py.num_Q m)%Q.
Proof.
  intros Hx Hy. unfold Py.sub. rewrite Hx, Hy.
  destruct n as [a|a], m as [b|b]; eexists; eexists;
    (split; [reflexivity|]); (split; [reflexivity|]); simpl;
    try reflexivity.
  unfold Z.sub. rewrite inject_Z_plus, inject_Z_opp. reflexivity.
Qed.

Lemma compare_field_run d d' k p :
  stat_ok (VDict d) k -> stat_ok (VDict d') k ->
  exists ln, compare_field (VDict d) (VDict d') k p = (Ok tt, emit [ln] p) /\
             reports_field (VDict d) (VDict d') k ln.
Proof.
  unfold stat_ok, reports_field, present, compare_field, field, bind, lift.
  cbn [Py.get].
  intros Hc Ho.
  destruct (Py.assoc k d) as [x|]; cbn [Py.is_None orb option_map];
    [|eexists; split; [apply print_emit|reflexivity]].
  destruct (Py.as_num x) as [n|] eqn:Hn;
    [|destruct x; try discriminate; try (now destruct Hc);
      eexists; split; [apply print_emit|reflexivity]].
  replace (Py.is_None x) with false by (destruct x; try reflexivity; discriminate).
  cbn [orb option_map].
  destruct (Py.assoc k d') as [y|]; cbn [Py.is_None option_map];
    [|eexists; split; [apply print_emit|reflexivity]].
  destruct (Py.as_num y) as [m|] eqn:Hm;
    [|destruct y; try discriminate; try (now destruct Ho);
      eexists; split; [apply print_emit|reflexivity]].
  replace (Py.is_None y) with false by (destruct y; try reflexivity; discriminate).
  cbn [option_map].
  destruct (sub_num x y n m Hn Hm) as (diff & dn & Hsub & Hdn & Hdiff).
  rewrite Hsub, (format_f_num _ _ Hm), (format_f_num _ _ Hn),
    (format_f_num _ _ Hdn).
  eexists. split; [apply print_emit|]. eexists. split; [reflexivity|exact Hdiff].
Qed.

Lemma concat_singletons {A} (R : A -> line -> Prop) l blocks :
  Forall2 (fun x b => exists ln, b = [ln] /\ R x ln) l blocks ->
  Forall2 R l (concat blocks).
Proof.
  induction 1 as [|x b l bs (ln & -> & HR) _ IH]; simpl; now constructor.
Qed.

Lemma compare_entry_run current prev idx p :
  run_record current -> run_record prev ->
  exists b,
    (ts <- lift (Py.getitem prev "timestamp") ;;
     print (ComparisonNo idx ts) ;;
     for_each fields (compare_field current prev)) p = (Ok tt, emit b p) /\
    reports_entry current (idx, prev) b.
Proof.
  intros ((d & ->) & _ & Hc) ((d' & ->) & (ts & Hts) & Ho).
  destruct (for_each_emit
              (fun k b => exists ln, b = [ln] /\
                                     reports_field (VDict d) (VDict d') k ln)
              (compare_field (VDict d) (VDict d')) fields) with
    (p := emit [ComparisonNo idx ts] p) as (blocks & Hrun & HR).
  { apply Forall_forall. intros k Hk q.
    destruct (compare_field_run d d' k q) as (ln & Hln & Hrep).
    - exact (proj1 (Forall_forall _ _) Hc k Hk).
    - exact (proj1 (Forall_forall _ _) Ho k Hk).
    - exists [ln]. split; [exact Hln|]. now exists ln. }
  exists (ComparisonNo idx ts :: concat blocks). split.
  - unfold bind, lift. cbn [Py.getitem]. simpl in Hts. rewrite Hts.
    rewrite print_emit, Hrun, emit_emit. reflexivity.
  - exists ts, (concat blocks). repeat split; [exact Hts|].
    now apply concat_singletons.
Qed.

Lemma Forall_enumerate {A} (P : A -> Prop) l :
  Forall P l -> forall start, Forall (fun e => P (snd e)) (enumerate start l).
Proof.
  induction 1; intros start; simpl; constructor; auto.
Qed.

Lemma print_comparison_run current history p :
  run_record current -> Forall run_record history ->
  exists report,
    print_comparison current history p = (Ok tt, emit report p) /\
    comparison_report current history report.
Proof.
  intros Hc Hh. destruct history as [|e rest].
  - eexists. split; [apply print_emit|reflexivity].
  - destruct (for_each_emit (reports_entry current)
                (fun '(idx, prev) =>
                   ts <- lift (Py.getitem prev "timestamp") ;;
                   print (ComparisonNo idx ts) ;;
                   for_each fields (compare_field current prev))
                (enumerate 1 (e :: rest))) with
      (p := emit [Text "=== Historical Comparison ==="] p)
      as (blocks & Hrun & HR).
    { eapply Forall_impl; [apply Forall_enumerate, Hh|].
      intros [idx prev] Hprev q. simpl in Hprev.
      now apply compare_entry_run. }
    exists (Text "=== Historical Comparison ===" :: concat blocks). split.
    + unfold print_comparison. unfold bind at 1. rewrite print_emit.
      rewrite Hrun, emit_emit. reflexivity.
    + now exists blocks.
Qed.

(** ** C7: the comparison report *)

(** C7.  For a current snapshot and earlier runs that are run records,
    [print_comparison] raises nothing and prints: for an empty history the
    single line "No previous data for comparison."; otherwise a heading and
    then, for each earlier run in the order of the list, numbered from 1,
    its timestamp and one line per field [loss_percent], [min], [max],
    [avg], which gives [current - earlier] when both values are present
    and "no data" when either is absent. *)
Theorem comparison_per_entry_and_field current history p :
  run_record current -> Forall run_record history ->
  exists report,
    print_comparison current history p = (Ok tt, emit report p) /\
    comparison_report current history report.
Proof. apply print_comparison_run. Qed.

Lemma run_record_snapshot t ts s l times : run_record (snapshot t ts s l times).
Proof.
  split; [eexists; reflexivity|]. split; [eexists; reflexivity|].
  unfold fields, stat_ok.
  repeat constructor; cbn [field snapshot Py.assoc String.eqb Ascii.eqb Bool.eqb].
  - unfold loss_of. destruct (0 <? s); discriminate.
  - destruct times; [exact I|discriminate].
  - destruct times; [exact I|discriminate].
  - destruct times; [exact I|discriminate].
Qed.

Lemma comparison_per_entry_and_field_witness :
  exists report,
    print_comparison (snapshot "10.0.0.1" "T5" 5 2 [10; 20; 30]%Q)
                     [demo_earlier; demo_other] (boot demo_files)
      = (Ok tt, emit report (boot demo_files)) /\
    comparison_report (snapshot "10.0.0.1" "T5" 5 2 [10; 20; 30]%Q)
                      [demo_earlier; demo_other] report.
Proof.
  apply (comparison_per_entry_and_field
           (snapshot "10.0.0.1" "T5" 5 2 [10; 20; 30]%Q)
           [demo_earlier; demo_other] (boot demo_files)).
  - split; [eexists; reflexivity|]. split; [eexists; reflexivity|].
    repeat constructor; vm_compute; discriminate.
  - repeat constructor;
      try (eexists; reflexivity); try discriminate.
Defined.

(** A current loss of 40 percent against an earlier 20: a difference of
    plus 20; the earlier run has no latencies, so those fields have no
    data. *)
Example comparison_delta :
  stdout (snd (print_comparison
                 (VDict [("loss_percent", VFloat 40); ("min", VFloat 10)])
                 [VDict [("timestamp", VStr "T"); ("loss_percent", VFloat 20);
                         ("min", VNone)]]
                 (boot demo_files)))
  = [Text "=== Historical Comparison ===";
     ComparisonNo 1 (VStr "T");
     FieldDelta "loss_percent" 20 40 20 "%";
     FieldNoData "min"; FieldNoData "max"; FieldNoData "avg"].
Proof. vm_compute. reflexivity. Qed.

(** ** Display *)

Lemma format_f_loss s l : exists q, Py.format_f (loss_of s l) = Ok q.
Proof. unfold loss_of. destruct (0 <? s); eexists; reflexivity. Qed.

(** Displaying a snapshot the aggregator built raises nothing and prints
    lines that depend on the snapshot only. *)
Lemma print_current_results_run t ts s l times :
  exists display, forall p,
    print_current_results (snapshot t ts s l times) p = (Ok tt, emit display p).
Proof.
  destruct (format_f_loss s l) as [q Hq].
  destruct times as [|x rest]; eexists; intros p;
    unfold print_current_results, bind, lift;
    cbn [snapshot Py.getitem Py.assoc String.eqb Ascii.eqb Bool.eqb
         latency_of Py.is_None negb Py.format_f Py.as_num Py.num_Q];
    rewrite Hq, !print_emit, !emit_emit; reflexivity.
Qed.

(** ** Interrupt handler *)

Lemma save_results_stored v path p :
  save_results v path p = (Ok tt, emit [ResultsSaved path] (stored v path p)).
Proof. apply save_results_run. Qed.


(** *** Code that only prints *)

Lemma prints_ret {A} P (a : A) : prints P (ret a).
Proof. intros p. exists []. split; [now rewrite emit_nil|constructor]. Qed.

Lemma prints_raise {A} P e : prints P (@raise A e).
Proof. intros p. exists []. split; [now rewrite emit_nil|constructor]. Qed.

Lemma prints_lift {A} P (r : res A) : prints P (lift r).
Proof. intros p. exists []. split; [now rewrite emit_nil|constructor]. Qed.

Lemma prints_print (P : line -> Prop) l : P l -> prints P (print l).
Proof. intros H p. exists [l]. split; [reflexivity|now constructor]. Qed.

Lemma prints_bind {A B} P (m : M A) (k : A -> M B) :
  prints P m -> (forall a, prints P (k a)) -> prints P (bind m k).
Proof.
  intros Hm Hk p. unfold bind.
  destruct (Hm p) as (l1 & H1 & HP1).
  destruct (m p) as [[a|e] p1]; simpl in H1; subst p1.
  - destruct (Hk a (emit l1 p)) as (l2 & H2 & HP2).
    exists (l1 ++ l2). rewrite H2, emit_emit. split; [reflexivity|].
    now apply Forall_app.
  - now exists l1.
Qed.

Lemma prints_for_each {A} P (body : A -> M unit) l :
  Forall (fun x => prints P (body x)) l -> prints P (for_each l body).
Proof.
  induction 1 as [|x l Hx _ IH]; simpl.
  - apply prints_ret.
  - apply prints_bind; [exact Hx|intros _; exact IH].
Qed.

Ltac prints_tac :=
  repeat first
    [ apply prints_ret | apply prints_raise | apply prints_lift
    | apply prints_print
    | apply prints_bind; [|intros ?] ].

Lemma enumerate_lookup {A} (l : list A) :
  forall start idx x, In (idx, x) (enumerate start l) ->
    (start <= idx)%nat /\ l !! (idx - start)%nat = Some x.
Proof.
  induction l as [|y l IH]; intros start idx x; simpl; [tauto|].
  intros [[= <- <-]|Hin].
  - split; [lia|]. now rewrite Nat.sub_diag.
  - destruct (IH _ _ _ Hin) as [Hle Hl]. split; [lia|].
    replace (idx - start)%nat with (S (idx - S start)) by lia. exact Hl.
Qed.

Lemma compare_field_prints h current prev k :
  prints (cites h) (compare_field current prev k).
Proof.
  unfold compare_field. prints_tac; try exact I.
  destruct (_ || _); prints_tac; exact I.
Qed.

Lemma prints_bind_lift {A B} P (r : res A) (k : A -> M B) :
  (forall a, r = Ok a -> prints P (k a)) -> prints P (bind (lift r) k).
Proof.
  intros Hk p. unfold bind, lift. destruct r as [a|e].
  - now apply Hk.
  - exists []. split; [now rewrite emit_nil|constructor].
Qed.

Lemma getitem_field v k x : Py.getitem v k = Ok x -> field v k = Some x.
Proof.
  destruct v; simpl; try discriminate.
  destruct (Py.assoc k d); now intros [= <-].
Qed.

Lemma print_comparison_cites current h :
  prints (cites h) (print_comparison current h).
Proof.
  unfold print_comparison. destruct h as [|e rest] eqn:Eh.
  - apply prints_print. exact I.
  - rewrite <- Eh. apply prints_bind; [apply prints_print; exact I|intros _].
    apply prints_for_each, Forall_forall. intros [idx prev] Hin.
    apply list_elem_of_In, enumerate_lookup in Hin. destruct Hin as [Hle Hl].
    apply prints_bind_lift. intros ts Hts.
    apply prints_bind.
    + apply prints_print. exists prev. repeat split; try assumption.
      now apply getitem_field.
    + intros _. apply prints_for_each, Forall_forall. intros k _.
      apply compare_field_prints.
Qed.

Lemma print_current_results_cites h v : prints (cites h) (print_current_results v).
Proof.
  unfold print_current_results. prints_tac; try exact I.
  destruct (negb _); prints_tac; exact I.
Qed.


Lemma stored_emit v path lines p :
  stored v path (emit lines p) = emit lines (stored v path p).
Proof. reflexivity. Qed.


(** ** The program up to the probe loop *)

Lemma main_setup_ok w a files l f p :
  main_setup w a (boot files) = (Ok (l, f), p) ->
  exists dest h,
    gethostbyname w (arg_target a) = Some dest /\
    select_target dest (load_all (comp_path_of w a) files) = Ok h /\
    l = mkLocals (save_path_of w a) h /\
    f = run_ping_init dest (arg_count a) (arg_timeout a) (arg_packet_size a) /\
    p = mkProc files (mkSlot None (Some (save_path_of w a)) (Some h)) [] 0 0.
Proof.
  unfold main_setup, bind at 1.
  destruct (gethostbyname w (arg_target a)) as [dest|]; [|discriminate].
  unfold ret at 1, bind at 1. rewrite load_history_select. cbn [fs boot].
  destruct (select_target dest _) as [h|e] eqn:Hh; [|discriminate].
  unfold bind, read_slot, write_slot, ret. cbn. intros [= <- <- <-].
  exists dest, h. repeat split. exact Hh.
Qed.

(** ** C3: the checkpoint an interruption saves *)



(** *** What a piece of code adds to the output *)

Lemma says_silent {A} P (m : M A) :
  (forall p, stdout (snd (m p)) = stdout p) -> says P m.
Proof.
  intros H p. exists []. rewrite H, app_nil_r. split; [reflexivity|constructor].
Qed.

Lemma says_prints {A} P (m : M A) : prints P m -> says P m.
Proof.
  intros H p. destruct (H p) as (lines & -> & HP). now exists lines.
Qed.

Lemma says_bind {A B} P (m : M A) (k : A -> M B) :
  says P m -> (forall a, says P (k a)) -> says P (bind m k).
Proof.
  intros Hm Hk p. unfold bind.
  destruct (Hm p) as (l1 & H1 & HP1).
  destruct (m p) as [[a|e] p1]; simpl in H1.
  - destruct (Hk a p1) as (l2 & H2 & HP2).
    exists (l1 ++ l2). rewrite H2, H1, app_assoc. split; [reflexivity|].
    now apply Forall_app.
  - now exists l1.
Qed.

Lemma says_save_results (P : line -> Prop) v path :
  P (ResultsSaved path) -> says P (save_results v path).
Proof.
  intros H p. rewrite save_results_run. exists [ResultsSaved path].
  split; [reflexivity|now constructor].
Qed.

Lemma says_save_compare_display h v path hist :
  hist = None \/ hist = Some h ->
  says (cites h) (save_compare_display v path hist).
Proof.
  intros Hh. unfold save_compare_display.
  apply says_bind; [|intros _; apply says_bind; [|intros _]].
  - destruct path; [now apply says_save_results|].
    now apply says_prints, prints_raise.
  - apply says_prints. destruct Hh as [-> | ->]; simpl.
    + apply prints_print. exact I.
    + apply print_comparison_cites.
  - apply says_prints, print_current_results_cites.
Qed.

(** The handler compares against the history held in the slot. *)
Lemma sigint_handler_cites h p :
  history (save_on_interrupt p) = None \/ history (save_on_interrupt p) = Some h ->
  exists lines,
    stdout (snd (sigint_handler p)) = stdout p ++ lines /\
    Forall (cites h) lines.
Proof.
  intros Hh. unfold sigint_handler, bind at 1, read_slot.
  revert p Hh.
  enough (H : forall s, history s = None \/ history s = Some h ->
            says (cites h)
              (match stats s with
               | Some current =>
                   if Py.truthy current
                   then print (Text "Interrupted by user. Saving results...") ;;
                        save_compare_display current (save_path s) (history s)
                   else ret tt
               | None => ret tt
               end ;; @raise unit (SystemExit 0))).
  { intros p Hh. exact (H (save_on_interrupt p) Hh p). }
  intros s Hh. apply says_bind; [|intros _; apply says_prints, prints_raise].
  destruct (stats s) as [v|]; [|apply says_prints, prints_ret].
  destruct (Py.truthy v); [|apply says_prints, prints_ret].
  apply says_bind; [apply says_prints, prints_print; exact I|intros _].
  now apply says_save_compare_display.
Qed.

(** After [run_ping], [main] compares against the history it loaded. *)
Lemma main_finish_cites l f : says (cites (l_history l)) (main_finish l f).
Proof.
  assert (Hscd : forall v,
            says (cites (l_history l))
                 (save_results v (l_save_path l) ;;
                  print_comparison v (l_history l) ;;
                  print_current_results v)).
  { intros v. apply says_bind; [now apply says_save_results|intros _].
    apply says_bind; [apply says_prints, print_comparison_cites|intros _].
    apply says_prints, print_current_results_cites. }
  unfold main_finish.
  destruct (at_pc f); try (apply says_prints, prints_ret).
  - apply says_bind; [apply says_prints, prints_print; exact I|intros _].
    apply Hscd.
  - destruct (is_Exception e); [|apply says_prints, prints_raise].
    apply says_bind; [apply says_prints, prints_print; exact I|intros _].
    apply says_bind; [apply says_silent; reflexivity|intros s].
    apply says_bind; [|intros _; apply says_prints, prints_raise].
    destruct (stats s) as [v|];
      [|apply says_prints, prints_print; exact I].
    destruct (Py.truthy v); [|apply says_prints, prints_print; exact I].
    apply says_bind; [apply says_prints, prints_print; exact I|intros _].
    apply Hscd.
Qed.

Lemma exec_steps w fuel : forall c c',
  exec w fuel c = Some c' ->
  running (fst c') = false /\ exists n, c' = steps w n c.
Proof.
  induction fuel as [|fuel IH]; intros c c'; simpl.
  - destruct (running (fst c)) eqn:Hr; [discriminate|].
    intros [= <-]. split; [exact Hr|now exists 0%nat].
  - destruct (running (fst c)) eqn:Hr.
    + intros H. destruct (IH _ _ H) as [Hr' [n ->]].
      split; [exact Hr'|now exists (S n)].
    + intros [= <-]. split; [exact Hr|now exists 0%nat].
Qed.

Lemma loop_line_cites h l : loop_line l -> cites h l.
Proof. destruct l; simpl; tauto. Qed.

Lemma main_setup_cites h w a : says (cites h) (main_setup w a).
Proof.
  unfold main_setup.
  apply says_bind; [|intros dest; apply says_bind; [|intros hist]].
  - destruct (gethostbyname w (arg_target a)).
    + apply says_prints, prints_ret.
    + apply says_prints. apply prints_bind; [|intros _; apply prints_raise].
      apply prints_print. exact I.
  - apply says_silent. intros p. now rewrite load_history_select.
  - apply says_bind; [apply says_silent; reflexivity|intros s].
    apply says_bind; [apply says_silent; reflexivity|intros _].
    apply says_prints, prints_ret.
Qed.

Lemma steps_cites h w n f p :
  Forall (cites h) (stdout p) ->
  Forall (cites h) (stdout (snd (steps w n (f, p)))).
Proof.
  intros H. destruct (steps_extends w n f p) as (_ & _ & _ & extra & -> & He).
  apply Forall_app. split; [exact H|].
  eapply Forall_impl; [exact He|]. intros l. apply loop_line_cites.
Qed.

(** ** C10: the history a run is compared with *)

(** C10.  In every run that ends (completed, failed or interrupted in the
    loop, whatever the paths), each "Comparison #idx (timestamp)" line of
    the output names the [idx]-th entry of the history loaded from the
    comparison file as it was when the process started, before any probe
    and before anything was saved, so never the record this run
    appends. *)
Theorem comparison_uses_history_loaded_at_start w a files sigint fuel o p :
  main w a sigint fuel (boot files) = Some (o, p) ->
  Forall (cites (history_at_start w a files)) (stdout p).
Proof.
  set (h0 := history_at_start w a files).
  unfold main.
  destruct (main_setup_cites h0 w a (boot files)) as (ls & Hls & Hcs).
  simpl in Hls. subst ls.
  destruct (main_setup w a (boot files)) as [[[l f]|e] p1] eqn:Hsetup;
    [|now intros [= _ <-]].
  cbn [snd] in Hcs.
  destruct (main_setup_ok _ _ _ _ _ _ Hsetup) as (dest & h & Hd & Hh & Hl & _ & Hp1).
  assert (Hh0 : h0 = h).
  { unfold h0, history_at_start. rewrite Hd, load_history_select.
    cbn [fst fs boot]. now rewrite Hh. }
  set (c := match sigint with
            | Some i => _
            | None => (f, p1)
            end).
  assert (Hc : Forall (cites h0) (stdout (snd c))).
  { subst c. destruct sigint as [i|]; [|exact Hcs].
    pose proof (steps_cites h0 w i f p1 Hcs) as Hsteps.
    pose proof (steps_extends w i f p1) as (_ & _ & Hhist & _).
    destruct (steps w i (f, p1)) as [f1 q1]. cbn [fst snd] in *.
    destruct (running f1); [|exact Hsteps].
    unfold deliver_sigint.
    destruct (sigint_handler_cites h0 q1) as (ls & Hls & Hcl).
    { right. rewrite Hhist, Hp1, Hh0. reflexivity. }
    destruct (sigint_handler q1) as [[[]|e] q2]; cbn [snd] in *;
      rewrite Hls; apply Forall_app; now split. }
  destruct (exec w fuel c) as [[f' p2]|] eqn:Hexec; [|discriminate].
  destruct (exec_steps _ _ _ _ Hexec) as [_ [n Hn]].
  assert (Hp2 : Forall (cites h0) (stdout p2)).
  { destruct c as [fc pc0]. pose proof (steps_cites h0 w n fc pc0 Hc) as H.
    now rewrite <- Hn in H. }
  destruct (main_finish_cites l f' p2) as (ls & Hls & Hcl).
  destruct (main_finish l f' p2) as [r p3]. intros [= _ <-].
  cbn [snd] in Hls. rewrite Hls. apply Forall_app. split; [exact Hp2|].
  rewrite Hl in Hcl. cbn [l_history] in Hcl. now rewrite Hh0.
Qed.

Lemma comparison_uses_history_loaded_at_start_witness :
  Forall (cites (history_at_start demo_world demo_args demo_files))
         (stdout demo_final).
Proof.
  apply (comparison_uses_history_loaded_at_start demo_world demo_args
           demo_files None 30 (Exit 0) demo_final).
  vm_compute. reflexivity.
Defined.

(** The comparison file is the output file here.  The run appends its own
    record, so the file then holds two runs against the address; the
    output compares with one, the earlier. *)
Example own_record_not_compared :
  comp_path_of demo_world demo_args = save_path_of demo_world demo_args /\
  history_at_start demo_world demo_args demo_files = [demo_earlier] /\
  (exists own,
     fst (load_history (save_path_of demo_world demo_args) "10.0.0.1" demo_final)
       = Ok [demo_earlier; own] /\
     field own "timestamp" = Some (VStr "T5")) /\
  List.filter (fun l => match l with ComparisonNo _ _ => true | _ => false end)
              (stdout demo_final)
    = [ComparisonNo 1 (VStr "T-1")].
Proof.
  split; [vm_compute; reflexivity|]. split; [vm_compute; reflexivity|].
  split; [eexists; split; vm_compute; reflexivity|].
  vm_compute. reflexivity.
Qed.

(** ** C9: what an interruption does *)


Lemma exec_stopped w fuel f p :
  running f = false -> exec w fuel (f, p) = Some (f, p).
Proof. intros H. destruct fuel; simpl; now rewrite H. Qed.




(** ** Termination of a bounded run *)

Lemma steps_add w a : forall b c, steps w (a + b) c = steps w b (steps w a c).
Proof.
  induction a as [|a IH]; intros b c; [reflexivity|].
  simpl. apply IH.
Qed.

Lemma step_stopped w f p : running f = false -> step w (f, p) = (f, p).
Proof.
  unfold running, step. destruct (at_pc f); try discriminate; reflexivity.
Qed.

Lemma steps_stopped w n f p : running f = false -> steps w n (f, p) = (f, p).
Proof.
  intros H. induction n as [|n IH]; [reflexivity|].
  cbn [steps]. now rewrite step_stopped.
Qed.

(** Enough fuel: if [run_ping] is left after [m] steps, [exec] with at
    least [m] steps of fuel returns that state. *)
Lemma exec_enough w m : forall fuel c,
  running (fst (steps w m c)) = false -> (m <= fuel)%nat ->
  exec w fuel c = Some (steps w m c).
Proof.
  induction m as [|m IH]; intros fuel [f p] Hstop Hle.
  - now apply exec_stopped.
  - destruct (running f) eqn:Hr.
    + destruct fuel as [|fuel]; [lia|].
      cbn [exec fst]. rewrite Hr. apply IH; [exact Hstop|lia].
    + rewrite steps_stopped by exact Hr. now apply exec_stopped.
Qed.

(** One round of the loop takes five steps. *)
Lemma iteration_steps w f p :
  at_pc f = AtPing -> loop_done f = false ->
  match ping w (target f) (timeout f) (packet_size f) (pings p) with
  | Raises _ => False
  | _ => True
  end ->
  at_pc (fst (steps w 5 (f, p))) = AtPing /\
  iter (fst (steps w 5 (f, p))) = S (iter f) /\
  count (fst (steps w 5 (f, p))) = count f.
Proof.
  intros Hpc Hdone Hans.
  assert (H : exists f' p',
            steps w 5 (f, p) = (f', p') /\ at_pc f' = AtPing /\
            iter f' = S (iter f) /\ count f' = count f).
  { change (steps w 5 (f, p)) with (steps w 4 (step w (f, p))).
    unfold step at 1. rewrite Hpc, Hdone.
    destruct (ping w _ _ _ _) as [s| |e]; [| |contradiction];
      cbn [steps step at_pc goto print snd];
      rewrite update_interim_run; cbn [at_pc goto];
      (eexists; eexists; split; [reflexivity|repeat split]). }
  destruct H as (f' & p' & -> & H1 & H2 & H3). now repeat split.
Qed.

Lemma loop_rounds w t n to ps p k :
  stats (save_on_interrupt p) = None ->
  (forall j, (j < k)%nat -> answered w t to ps (pings p) j) ->
  (k <= n)%nat ->
  at_pc (fst (steps w (5 * k) (run_ping_init t (Some (Z.of_nat n)) to ps, p)))
    = AtPing /\
  iter (fst (steps w (5 * k) (run_ping_init t (Some (Z.of_nat n)) to ps, p)))
    = k.
Proof.
  intros Hs. induction k as [|k IH]; intros Hans Hle; [now split|].
  destruct IH as [Hpc Hiter]; [intros j Hj; apply Hans; lia|lia|].
  replace (5 * S k)%nat with (5 * k + 5)%nat by lia. rewrite steps_add.
  pose proof (run_ping_inv w t (Some (Z.of_nat n)) to ps p (5 * k) Hs) as Hinv.
  destruct (steps w (5 * k) _) as [f q]. cbn [fst snd] in *.
  destruct (iteration_steps w f q Hpc) as (H1 & H2 & _).
  - unfold loop_done. rewrite (inv_count _ _ _ _ _ _ _ _ Hinv), Hiter.
    apply Z.leb_gt. lia.
  - rewrite (inv_target _ _ _ _ _ _ _ _ Hinv), (inv_timeout _ _ _ _ _ _ _ _ Hinv),
      (inv_packet_size _ _ _ _ _ _ _ _ Hinv).
    rewrite (inv_pings _ _ _ _ _ _ _ _ Hinv) by now rewrite Hpc.
    unfold pinged. rewrite Hpc, Hiter, Nat.add_0_r.
    apply (Hans k). lia.
  - split; [exact H1|]. now rewrite H2, Hiter.
Qed.

(** So for every [k] up to the count there is a point of the loop, between
    two probes, where exactly [k] probes are in the checkpoint. *)
Lemma between_probes w t n to ps p k :
  stats (save_on_interrupt p) = None ->
  (forall j, (j < k)%nat -> answered w t to ps (pings p) j) ->
  (k <= n)%nat ->
  running (fst (steps w (5 * k) (run_ping_init t (Some (Z.of_nat n)) to ps, p)))
    = true /\
  checkpointed
    (fst (steps w (5 * k) (run_ping_init t (Some (Z.of_nat n)) to ps, p))) = k.
Proof.
  intros Hs Hans Hle.
  destruct (loop_rounds w t n to ps p k Hs Hans Hle) as [Hpc Hiter].
  unfold running, checkpointed. rewrite Hpc, Hiter. split; [reflexivity|lia].
Qed.

(** With [count = n] and a transport that answers the first [n] probes,
    [run_ping] returns, within [5 * n + 2] steps, the snapshot of those
    [n] probes. *)
Lemma run_ping_returns w t n to ps p fuel :
  stats (save_on_interrupt p) = None ->
  (forall j, (j < n)%nat -> answered w t to ps (pings p) j) ->
  (5 * n + 2 <= fuel)%nat ->
  exists ts p',
    run_ping w fuel t (Some (Z.of_nat n)) to ps p
    = Some (Ok (snapshot t ts (Z.of_nat n) (timeouts w t to ps (pings p) n)
                         (replies w t to ps (pings p) n)), p').
Proof.
  intros Hs Hans Hfuel.
  destruct (loop_rounds w t n to ps p n Hs Hans (Nat.le_refl n)) as [Hpc Hiter].
  pose proof (run_ping_inv w t (Some (Z.of_nat n)) to ps p (5 * n) Hs) as Hinv.
  pose proof (run_ping_inv w t (Some (Z.of_nat n)) to ps p (5 * n + 2) Hs) as Hinv2.
  assert (Hend : exists v,
            at_pc (fst (steps w (5 * n + 2)
                          (run_ping_init t (Some (Z.of_nat n)) to ps, p)))
              = Returned v /\
            iter (fst (steps w (5 * n + 2)
                         (run_ping_init t (Some (Z.of_nat n)) to ps, p))) = n).
  { rewrite steps_add. destruct (steps w (5 * n) _) as [f q]. cbn [fst snd] in *.
    assert (Hdone : loop_done f = true).
    { unfold loop_done. rewrite (inv_count _ _ _ _ _ _ _ _ Hinv), Hiter.
      apply Z.leb_le. lia. }
    assert (H2 : exists v q', steps w 2 (f, q) = (goto (Returned v) f, q')).
    { cbn [steps]. unfold step at 2. rewrite Hpc, Hdone.
      unfold step. cbn [at_pc goto]. rewrite final_block_run.
      eexists. eexists. reflexivity. }
    destruct H2 as (v & q' & ->). exists v. split; [reflexivity|exact Hiter]. }
  destruct Hend as (v & Hv & Hit).
  destruct (produced_snapshot _ _ _ _ _ _ _ _ v Hinv2) as [ts Hsnap]; [now right|].
  unfold checkpointed in Hsnap. rewrite Hv, Hit, Nat.add_0_r in Hsnap.
  unfold run_ping. rewrite (exec_enough w (5 * n + 2)).
  - destruct (steps w (5 * n + 2) _) as [f2 p2]. cbn [fst snd] in *.
    rewrite Hv. exists ts, p2. now rewrite Hsnap.
  - unfold running. now rewrite Hv.
  - exact Hfuel.
Qed.

Lemma main_setup_run w a files dest h :
  gethostbyname w (arg_target a) = Some dest ->
  select_target dest (load_all (comp_path_of w a) files) = Ok h ->
  main_setup w a (boot files)
  = (Ok (mkLocals (save_path_of w a) h,
         run_ping_init dest (arg_count a) (arg_timeout a) (arg_packet_size a)),
     mkProc files (mkSlot None (Some (save_path_of w a)) (Some h)) [] 0 0).
Proof.
  intros Hd Hh. unfold main_setup, bind at 1. rewrite Hd.
  unfold ret at 1, bind at 1. rewrite load_history_select. cbn [fs boot].
  rewrite Hh. reflexivity.
Qed.

(** With a count, a transport that answers and a history of run records,
    the program completes: it saves the final snapshot, compares,
    displays, and ends with exit status 0. *)
Lemma main_completes w a files dest n h fuel :
  gethostbyname w (arg_target a) = Some dest ->
  arg_count a = Some (Z.of_nat n) ->
  select_target dest (load_all (comp_path_of w a) files) = Ok h ->
  Forall run_record h ->
  (forall j, (j < n)%nat ->
     answered w dest (arg_timeout a) (arg_packet_size a) 0 j) ->
  (5 * n + 2 <= fuel)%nat ->
  exists ts p1 report display,
    let v := snapshot dest ts (Z.of_nat n)
               (timeouts w dest (arg_timeout a) (arg_packet_size a) 0 n)
               (replies w dest (arg_timeout a) (arg_packet_size a) 0 n) in
    main w a None fuel (boot files)
    = Some (Exit 0,
            emit (Text "Final results:" :: ResultsSaved (save_path_of w a)
                    :: report ++ display)
                 (stored v (save_path_of w a) p1)) /\
    fs p1 = files /\
    comparison_report v h report.
Proof.
  intros Hd Hc Hh Hrec Hans Hfuel.
  unfold main. rewrite (main_setup_run w a files dest h Hd Hh).
  set (p0 := mkProc files _ [] 0%nat 0%nat).
  destruct (run_ping_returns w dest n (arg_timeout a) (arg_packet_size a) p0 fuel
              eq_refl Hans Hfuel) as (ts & p1 & Hrun).
  unfold run_ping in Hrun. rewrite <- Hc in Hrun.
  destruct (exec w fuel _) as [[f1 q1]|] eqn:Hexec; [|discriminate].
  destruct (exec_steps _ _ _ _ Hexec) as [_ [m Hm]].
  pose proof (steps_extends w m
                (run_ping_init dest (arg_count a) (arg_timeout a)
                               (arg_packet_size a)) p0) as (Hfs & _).
  rewrite <- Hm in Hfs. cbn [snd] in Hfs.
  destruct (at_pc f1) as [| | | | | |v|] eqn:Hpc; try discriminate.
  injection Hrun as Hv Hq. subst v q1.
  set (v := snapshot _ _ _ _ _) in *.
  destruct (print_current_results_run dest ts (Z.of_nat n)
              (timeouts w dest (arg_timeout a) (arg_packet_size a) 0 n)
              (replies w dest (arg_timeout a) (arg_packet_size a) 0 n))
    as [display Hdisp].
  fold v in Hdisp.
  destruct (print_comparison_run v h
              (emit [ResultsSaved (save_path_of w a)]
                 (stored v (save_path_of w a) (emit [Text "Final results:"] p1)))
              (run_record_snapshot _ _ _ _ _) Hrec)
    as (report & Hcmp & Hrep).
  exists ts, p1, report, display. cbv zeta. fold v.
  split; [|split; [exact Hfs|exact Hrep]].
  unfold main_finish. rewrite Hpc. cbn [l_save_path l_history].
  unfold bind at 1. rewrite print_emit.
  unfold bind at 1. rewrite save_results_stored.
  unfold bind at 1. rewrite Hcmp, Hdisp.
  rewrite stored_emit, !emit_emit. reflexivity.
Qed.

(** * Further properties *)

(** ** History store: selection, errors and round trip *)

Lemma select_target_filter t entries :
  forallb is_dict entries = true ->
  select_target t entries = Ok (List.filter (targets t) entries).
Proof.
  induction entries as [|e rest IH]; [reflexivity|].
  cbn [forallb]. intros H. apply andb_true_iff in H. destruct H as [He Hrest].
  destruct e; try discriminate.
  cbn [select_target Py.get rbind]. rewrite (IH Hrest).
  cbn [rbind List.filter]. unfold targets. cbn [field].
  destruct (Py.assoc "target" d); reflexivity.
Qed.

Lemma select_target_non_object t entries :
  forallb is_dict entries = false ->
  select_target t entries = Raise AttributeError.
Proof.
  induction entries as [|e rest IH]; [discriminate|].
  cbn [forallb]. intros H. apply andb_false_iff in H.
  destruct e; try reflexivity.
  destruct H as [H|H]; [discriminate|].
  cbn [select_target Py.get rbind]. now rewrite (IH H).
Qed.

(** X1.  When the file decodes and every entry is an object,
    [load_history] returns exactly the entries whose [target] is the given
    string, in file order (a top-level value that is not a list counting
    as one entry), and changes nothing. *)
Theorem load_history_selects_by_target path t p v :
  fs p !! path = Some (Json v) ->
  forallb is_dict (as_list v) = true ->
  load_history path t p = (Ok (List.filter (targets t) (as_list v)), p).
Proof.
  intros Hf Hd. rewrite load_history_select. unfold load_all. rewrite Hf.
  now rewrite select_target_filter.
Qed.

Lemma load_history_selects_by_target_witness :
  load_history "/srv/ping_history.json" "10.0.0.1" (boot demo_files)
  = (Ok (List.filter (targets "10.0.0.1")
                     (as_list (VList [demo_earlier; demo_other]))),
     boot demo_files).
Proof.
  apply (load_history_selects_by_target "/srv/ping_history.json" "10.0.0.1"
           (boot demo_files) (VList [demo_earlier; demo_other])).
  - vm_compute. reflexivity.
  - vm_compute. reflexivity.
Defined.

(** X2.  When the file decodes but some entry is not an object (a number,
    a string, a list, [null]), [load_history] raises [AttributeError]: only
    a missing file and undecodable text are caught. *)
Theorem load_history_non_object_entry path t p v :
  fs p !! path = Some (Json v) ->
  forallb is_dict (as_list v) = false ->
  load_history path t p = (Raise AttributeError, p).
Proof.
  intros Hf Hd. rewrite load_history_select. unfold load_all. rewrite Hf.
  now rewrite select_target_non_object.
Qed.

Lemma load_history_non_object_entry_witness :
  load_history "h.json" "10.0.0.1"
    (boot {[ "h.json" := Json (VList [demo_earlier; VInt 1]) ]})
  = (Raise AttributeError,
     boot {[ "h.json" := Json (VList [demo_earlier; VInt 1]) ]}).
Proof.
  apply (load_history_non_object_entry "h.json" "10.0.0.1"
           (boot {[ "h.json" := Json (VList [demo_earlier; VInt 1]) ]})
           (VList [demo_earlier; VInt 1])).
  - vm_compute. reflexivity.
  - vm_compute. reflexivity.
Defined.

Lemma select_target_snoc t entries v h :
  is_dict v = true ->
  select_target t entries = Ok h ->
  select_target t (entries ++ [v])
  = Ok (if targets t v then h ++ [v] else h).
Proof.
  intros Hv. revert h. induction entries as [|e rest IH]; intros h.
  - intros [= <-]. cbn [app]. rewrite (select_target_filter t [v]).
    + cbn [List.filter]. now destruct (targets t v).
    + cbn [forallb]. now rewrite Hv.
  - cbn [app select_target]. destruct (Py.get e "target") as [x|]; [|discriminate].
    cbn [rbind]. destruct (select_target t rest) as [tl|]; [|discriminate].
    rewrite (IH tl eq_refl). cbn [rbind]. intros [= <-].
    destruct (targets t v), (Py.eq_str x t); reflexivity.
Qed.

(** X3.  Saving and loading compose: after [save_results v path] with [v]
    an object, [load_history path t] returns what it returned before,
    followed by [v] when [v]'s target is [t], and unchanged otherwise. *)
Theorem save_then_load path t v p h :
  is_dict v = true ->
  fst (load_history path t p) = Ok h ->
  fst (load_history path t (snd (save_results v path p)))
  = Ok (if targets t v then h ++ [v] else h).
Proof.
  intros Hv. rewrite !load_history_select, save_results_run. cbn [fst snd fs].
  rewrite load_all_insert. now apply select_target_snoc.
Qed.

Lemma save_then_load_witness :
  fst (load_history "/srv/ping_history.json" "10.0.0.1"
         (snd (save_results (snapshot "10.0.0.1" "T5" 5 2 [10; 20; 30]%Q)
                            "/srv/ping_history.json" (boot demo_files))))
  = Ok (if targets "10.0.0.1" (snapshot "10.0.0.1" "T5" 5 2 [10; 20; 30]%Q)
        then [demo_earlier] ++ [snapshot "10.0.0.1" "T5" 5 2 [10; 20; 30]%Q]
        else [demo_earlier]).
Proof.
  apply (save_then_load "/srv/ping_history.json" "10.0.0.1"
           (snapshot "10.0.0.1" "T5" 5 2 [10; 20; 30]%Q) (boot demo_files)
           [demo_earlier]).
  - reflexivity.
  - vm_compute. reflexivity.
Defined.

(** X4.  [save_results] on one path leaves every other file as it was, so
    what [load_history] returns for another path does not change. *)
Theorem save_leaves_other_files path path' t v p :
  path <> path' ->
  fs (snd (save_results v path p)) !! path' = fs p !! path' /\
  fst (load_history path' t (snd (save_results v path p)))
  = fst (load_history path' t p).
Proof.
  intros Hne. rewrite !load_history_select, save_results_run. cbn [fst snd fs].
  split; [now rewrite lookup_insert_ne|].
  now rewrite load_all_insert_ne.
Qed.

Lemma save_leaves_other_files_witness :
  fs (snd (save_results demo_other "a.json" (boot demo_files)))
    !! "/srv/ping_history.json"
  = fs (boot demo_files) !! "/srv/ping_history.json" /\
  fst (load_history "/srv/ping_history.json" "10.0.0.1"
         (snd (save_results demo_other "a.json" (boot demo_files))))
  = fst (load_history "/srv/ping_history.json" "10.0.0.1" (boot demo_files)).
Proof.
  apply (save_leaves_other_files "a.json" "/srv/ping_history.json" "10.0.0.1"
           demo_other (boot demo_files)).
  discriminate.
Defined.

(** ** Comparator and display: when they fail, what they touch *)

Lemma for_each_fst {A} (body : A -> M unit) (verdict : A -> option exn) l :
  (forall x p, fst (body x p) = outcome_of_failure (verdict x)) ->
  forall p,
    fst (for_each l body p)
    = outcome_of_failure
        (fold_right (fun x later => match verdict x with
                                    | Some e => Some e
                                    | None => later
                                    end) None l).
Proof.
  intros Hb. induction l as [|x l IH]; intros p; [reflexivity|].
  cbn [for_each fold_right]. unfold bind. specialize (Hb x p).
  destruct (body x p) as [[[]|e] q]; cbn [fst] in Hb.
  - destruct (verdict x); [discriminate|]. apply IH.
  - destruct (verdict x) as [e'|]; [|discriminate].
    cbn [outcome_of_failure] in *. now injection Hb as ->.
Qed.

Lemma compare_field_fst d d' k p :
  fst (compare_field (VDict d) (VDict d') k p)
  = outcome_of_failure
      (if comparable (VDict d) (VDict d') k then None else Some TypeError).
Proof.
  unfold compare_field, comparable, value_of, bind, lift. cbn [Py.get field].
  destruct (Py.assoc k d) as [x|]; destruct (Py.assoc k d') as [y|];
    try destruct x; try destruct y; reflexivity.
Qed.

Lemma fields_fst d d' p :
  fst (for_each fields (compare_field (VDict d) (VDict d')) p)
  = outcome_of_failure
      (if forallb (comparable (VDict d) (VDict d')) fields then None
       else Some TypeError).
Proof.
  rewrite (for_each_fst _
             (fun k => if comparable (VDict d) (VDict d') k then None
                       else Some TypeError))
    by (intros; apply compare_field_fst).
  unfold fields. cbn [fold_right forallb].
  repeat destruct (comparable _ _ _); reflexivity.
Qed.

Lemma compare_entry_fst d idx prev p :
  fst ((ts <- lift (Py.getitem prev "timestamp") ;;
        print (ComparisonNo idx ts) ;;
        for_each fields (compare_field (VDict d) prev)) p)
  = outcome_of_failure (entry_failure (VDict d) prev).
Proof.
  unfold bind at 1, lift, entry_failure.
  destruct prev as [| | | | | |d']; try reflexivity.
  cbn [Py.getitem field].
  destruct (Py.assoc "timestamp" d') as [ts|]; [|reflexivity].
  unfold bind. rewrite print_emit.
  pose proof (fields_fst d d' (emit [ComparisonNo idx ts] p)) as H.
  destruct (for_each fields _ _) as [[[]|e] q]; cbn [fst] in *; exact H.
Qed.

Lemma fold_enumerate {A B} (g : A -> B -> B) (b : B) l :
  forall start,
    fold_right (fun e later => g (snd e) later) b (enumerate start l)
    = fold_right g b l.
Proof.
  induction l as [|x l IH]; intros start; [reflexivity|].
  cbn [enumerate fold_right snd]. now rewrite IH.
Qed.

Lemma first_failure_fold current history :
  first_failure current history
  = fold_right (fun prev later => match entry_failure current prev with
                                  | Some e => Some e
                                  | None => later
                                  end) None history.
Proof.
  induction history as [|prev rest IH]; [reflexivity|].
  cbn [first_failure fold_right]. now rewrite IH.
Qed.

Lemma print_comparison_fst current history p :
  is_dict current = true ->
  fst (print_comparison current history p)
  = outcome_of_failure (first_failure current history).
Proof.
  intros Hc. destruct current as [| | | | | |d]; try discriminate.
  destruct history as [|e rest]; [reflexivity|].
  unfold print_comparison, bind at 1. rewrite print_emit.
  rewrite (for_each_fst _ (fun e => entry_failure (VDict d) (snd e))).
  - rewrite first_failure_fold.
    now rewrite (fold_enumerate
                   (fun prev later => match entry_failure (VDict d) prev with
                                      | Some e => Some e
                                      | None => later
                                      end)).
  - intros [idx prev] q. apply compare_entry_fst.
Qed.



(** An entry without a timestamp stops the comparison with [KeyError]; a
    string where a number is expected stops it with [TypeError]. *)
Example comparison_failures :
  first_failure (snapshot "10.0.0.1" "T5" 5 2 [10; 20; 30]%Q)
    [demo_earlier;
     VDict [("target", VStr "10.0.0.1"); ("loss_percent", VFloat 20)]]
  = Some KeyError /\
  first_failure (snapshot "10.0.0.1" "T5" 5 2 [10; 20; 30]%Q)
    [VDict [("timestamp", VStr "T"); ("loss_percent", VStr "20%")]]
  = Some TypeError.
Proof. split; vm_compute; reflexivity. Qed.

(** X6.  Whether they return or raise, [print_comparison] and
    [print_current_results] only print: the files, the checkpoint slot and
    the counters are as before. *)
Theorem comparison_and_display_only_print current history stats p :
  (exists lines, snd (print_comparison current history p) = emit lines p) /\
  (exists lines, snd (print_current_results stats p) = emit lines p).
Proof.
  split.
  - destruct (print_comparison_cites current history p) as (lines & H & _).
    now exists lines.
  - destruct (print_current_results_cites [] stats p) as (lines & H & _).
    now exists lines.
Qed.

(** X7.  Displaying a snapshot the aggregator built raises nothing and
    prints six lines: the heading, target, timestamp, the two packet
    counts, the loss, and the three latencies, or "no data" in their place
    exactly when no reply was recorded. *)
Theorem display_of_snapshot t ts s l times v p :
  stats_dict t ts s l times = Ok v ->
  print_current_results v p
  = (Ok tt,
     emit [Text "=== Current Test Results ===";
           Target (VStr t);
           Timestamp (VStr ts);
           Packets (VInt s) (VInt (s - l));
           PacketLoss (loss_Q s l);
           match times with
           | [] => Text "Latency: No data available."
           | x :: rest =>
               Latency (Py.min_from x rest) (Py.max_from x rest)
                       (mean_of x rest)
           end] p).
Proof.
  rewrite stats_dict_snapshot. intros [= <-].
  unfold print_current_results, bind, lift, loss_Q.
  cbn [snapshot Py.getitem Py.assoc String.eqb Ascii.eqb Bool.eqb].
  unfold loss_of.
  destruct (0 <? s); destruct times as [|x rest];
    cbn [latency_of Py.is_None negb Py.format_f Py.as_num Py.num_Q];
    rewrite !print_emit, !emit_emit; reflexivity.
Qed.

Lemma display_of_snapshot_witness :
  print_current_results (snapshot "10.0.0.1" "T5" 5 2 [10; 20; 30]%Q)
                        (boot demo_files)
  = (Ok tt,
     emit [Text "=== Current Test Results ===";
           Target (VStr "10.0.0.1");
           Timestamp (VStr "T5");
           Packets (VInt 5) (VInt (5 - 2));
           PacketLoss (loss_Q 5 2);
           Latency (Py.min_from 10 [20; 30]%Q) (Py.max_from 10 [20; 30]%Q)
                   (mean_of 10 [20; 30]%Q)]
          (boot demo_files)).
Proof.
  apply (display_of_snapshot "10.0.0.1" "T5" 5 2 [10; 20; 30]%Q
           (snapshot "10.0.0.1" "T5" 5 2 [10; 20; 30]%Q) (boot demo_files)).
  vm_compute. reflexivity.
Defined.

(** ** Aggregator: what every snapshot satisfies *)

Lemma loss_in_range s l :
  0 <= l <= s -> (0 <= loss_Q s l <= 100)%Q.
Proof.
  intros [Hl Hs]. unfold loss_Q. destruct (0 <? s) eqn:Hpos.
  - apply Z.ltb_lt in Hpos.
    assert (Hq : (0 < inject_Z s)%Q) by (rewrite <- (Zlt_Qlt 0); exact Hpos).
    assert (H0 : (0 <= inject_Z l)%Q) by (rewrite <- (Zle_Qle 0); exact Hl).
    assert (H1 : (inject_Z l <= inject_Z s)%Q) by (rewrite <- Zle_Qle; exact Hs).
    assert (Hlo : (0 <= inject_Z l / inject_Z s)%Q)
      by (apply Qle_shift_div_l; [exact Hq|lra]).
    assert (Hhi : (inject_Z l / inject_Z s <= 1)%Q)
      by (apply Qle_shift_div_r; [exact Hq|lra]).
    split; lra.
  - split; [discriminate|apply Qle_refl].
Qed.

Lemma present_loss t ts s l times :
  present (snapshot t ts s l times) "loss_percent" = Some (loss_Q s l).
Proof.
  unfold present, loss_Q.
  cbn [field snapshot Py.assoc String.eqb Ascii.eqb Bool.eqb].
  unfold loss_of. destruct (0 <? s); reflexivity.
Qed.

(** X8.  In every snapshot the loop puts in the slot or returns,
    [loss_percent] is a number between 0 and 100. *)
Theorem loss_percent_between_0_and_100 w t c to ps p n v :
  stats (save_on_interrupt p) = None ->
  stats (save_on_interrupt (snd (steps w n (run_ping_init t c to ps, p))))
    = Some v \/
  at_pc (fst (steps w n (run_ping_init t c to ps, p))) = Returned v ->
  exists q, present v "loss_percent" = Some q /\ (0 <= q <= 100)%Q.
Proof.
  intros Hs Hv.
  destruct (produced_snapshot _ _ _ _ _ _ _ _ _ (run_ping_inv w t c to ps p n Hs) Hv)
    as [ts ->].
  eexists. split; [apply present_loss|]. apply loss_in_range.
  pose proof (timeouts_range w t to ps (pings p)
                (checkpointed (fst (steps w n (run_ping_init t c to ps, p))))).
  lia.
Qed.

Lemma loss_percent_between_0_and_100_witness :
  exists q,
    present (snapshot "10.0.0.1" "T2" 3 1 [(1 # 100) * 1000; (2 # 100) * 1000]%Q)
            "loss_percent" = Some q /\
    (0 <= q <= 100)%Q.
Proof.
  apply (loss_percent_between_0_and_100 demo_world "10.0.0.1" (Some 5) 4 56
           (boot demo_files) 14).
  - reflexivity.
  - left. vm_compute. reflexivity.
Defined.

(** X9.  In every such snapshot [received] is the number of latency
    samples the statistics were computed from: the replies among the
    probes recorded. *)
Theorem received_counts_replies w t c to ps p n v :
  stats (save_on_interrupt p) = None ->
  stats (save_on_interrupt (snd (steps w n (run_ping_init t c to ps, p))))
    = Some v \/
  at_pc (fst (steps w n (run_ping_init t c to ps, p))) = Returned v ->
  let f := fst (steps w n (run_ping_init t c to ps, p)) in
  field v "received"
  = Some (VInt (Z.of_nat (length (replies w t to ps (pings p) (checkpointed f))))).
Proof.
  intros Hs Hv f.
  pose proof (run_ping_inv w t c to ps p n Hs) as H. fold f in H.
  destruct (produced_snapshot _ _ _ _ _ _ _ _ _ H Hv) as [ts ->].
  cbn [field snapshot Py.assoc String.eqb Ascii.eqb Bool.eqb].
  do 2 f_equal.
  assert (Hans : forall j, (j < checkpointed f)%nat ->
                           answered w t to ps (pings p) j).
  { intros j Hj. apply (inv_answered _ _ _ _ _ _ _ _ H).
    unfold checkpointed, recorded in *. destruct (at_pc f); lia. }
  pose proof (replies_timeouts w t to ps (pings p) (checkpointed f) Hans). lia.
Qed.

Lemma received_counts_replies_witness :
  let f := fst (steps demo_world 14 demo_start) in
  field (snapshot "10.0.0.1" "T2" 3 1 [(1 # 100) * 1000; (2 # 100) * 1000]%Q)
        "received"
  = Some (VInt (Z.of_nat (length (replies demo_world "10.0.0.1" 4 56 0
                                          (checkpointed f))))).
Proof.
  apply (received_counts_replies demo_world "10.0.0.1" (Some 5) 4 56
           (boot demo_files) 14).
  - reflexivity.
  - left. vm_compute. reflexivity.
Defined.

Lemma min_from_in l : forall best, In (Py.min_from best l) (best :: l).
Proof.
  induction l as [|x l IH]; intros best; [now left|].
  cbn [Py.min_from]. destruct (Py.Qlt_bool x best).
  - right. apply IH.
  - destruct (IH best) as [H|H]; [now left|right; now right].
Qed.

Lemma max_from_in l : forall best, In (Py.max_from best l) (best :: l).
Proof.
  induction l as [|x l IH]; intros best; [now left|].
  cbn [Py.max_from]. destruct (Py.Qlt_bool best x).
  - right. apply IH.
  - destruct (IH best) as [H|H]; [now left|right; now right].
Qed.

(** X10.  When a snapshot has latencies, [min] and [max] are two of the
    recorded samples and every sample lies between them. *)
Theorem min_max_are_samples w t c to ps p n v :
  stats (save_on_interrupt p) = None ->
  stats (save_on_interrupt (snd (steps w n (run_ping_init t c to ps, p))))
    = Some v \/
  at_pc (fst (steps w n (run_ping_init t c to ps, p))) = Returned v ->
  let f := fst (steps w n (run_ping_init t c to ps, p)) in
  let samples := replies w t to ps (pings p) (checkpointed f) in
  samples <> [] ->
  exists mn mx : Q,
    field v "min" = Some (VFloat mn) /\ field v "max" = Some (VFloat mx) /\
    In mn samples /\ In mx samples /\
    forall x, In x samples -> (mn <= x <= mx)%Q.
Proof.
  intros Hs Hv f samples Hne.
  pose proof (run_ping_inv w t c to ps p n Hs) as H. fold f in H.
  destruct (produced_snapshot _ _ _ _ _ _ _ _ _ H Hv) as [ts ->].
  fold samples. destruct samples as [|x rest]; [now destruct Hne|].
  exists (Py.min_from x rest), (Py.max_from x rest).
  split; [reflexivity|]. split; [reflexivity|].
  split; [apply min_from_in|]. split; [apply max_from_in|].
  intros y [<-|Hy]; split.
  - apply min_from_le_best.
  - apply max_from_ge_best.
  - now apply min_from_le_all.
  - now apply max_from_ge_all.
Qed.

Lemma min_max_are_samples_witness :
  exists mn mx : Q,
    field (snapshot "10.0.0.1" "T2" 3 1 [(1 # 100) * 1000; (2 # 100) * 1000]%Q)
          "min" = Some (VFloat mn) /\
    field (snapshot "10.0.0.1" "T2" 3 1 [(1 # 100) * 1000; (2 # 100) * 1000]%Q)
          "max" = Some (VFloat mx) /\
    In mn (replies demo_world "10.0.0.1" 4 56 0
                   (checkpointed (fst (steps demo_world 14 demo_start)))) /\
    In mx (replies demo_world "10.0.0.1" 4 56 0
                   (checkpointed (fst (steps demo_world 14 demo_start)))) /\
    forall x,
      In x (replies demo_world "10.0.0.1" 4 56 0
                    (checkpointed (fst (steps demo_world 14 demo_start)))) ->
      (mn <= x <= mx)%Q.
Proof.
  apply (min_max_are_samples demo_world "10.0.0.1" (Some 5) 4 56
           (boot demo_files) 14).
  - reflexivity.
  - left. vm_compute. reflexivity.
  - vm_compute. discriminate.
Defined.

(** ** Probe loop: how many probes, when it ends, what it leaves alone *)

(** X11.  A count of zero or below sends no probe: [run_ping] is over
    after the loop test and the final block, with the snapshot of an empty
    run. *)
Theorem nonpositive_count_sends_nothing w t c to ps p fuel :
  c <= 0 ->
  run_ping w (S (S fuel)) t (Some c) to ps p
  = Some (Ok (snapshot t (now w (ticks p)) 0 0 []),
          mkProc (fs p)
                 (mkSlot (Some (snapshot t (now w (ticks p)) 0 0 []))
                         (save_path (save_on_interrupt p))
                         (history (save_on_interrupt p)))
                 (stdout p) (pings p) (S (ticks p))).
Proof.
  intros Hc. unfold run_ping, run_ping_init.
  set (f0 := mkFrame t (Some c) to ps [] 0 0 0%nat AtPing).
  assert (H1 : step w (f0, p) = (goto AtFinal f0, p)).
  { unfold step. cbn [at_pc f0]. unfold loop_done. cbn [count iter f0 Z.of_nat].
    change (Z.of_nat 0) with 0.
    now replace (c <=? 0) with true by (symmetry; apply Z.leb_le; exact Hc). }
  cbn [exec fst]. change (running f0) with true. cbv iota. rewrite H1.
  change (running (goto AtFinal f0)) with true. cbv iota.
  unfold step. cbn [at_pc goto]. rewrite final_block_run.
  rewrite exec_stopped by reflexivity. reflexivity.
Qed.

Lemma nonpositive_count_sends_nothing_witness :
  run_ping demo_world 2 "10.0.0.1" (Some (-3)) 4 56 (boot demo_files)
  = Some (Ok (snapshot "10.0.0.1" (now demo_world (ticks (boot demo_files))) 0 0 []),
          mkProc (fs (boot demo_files))
                 (mkSlot (Some (snapshot "10.0.0.1"
                                  (now demo_world (ticks (boot demo_files))) 0 0 []))
                         (save_path (save_on_interrupt (boot demo_files)))
                         (history (save_on_interrupt (boot demo_files))))
                 (stdout (boot demo_files)) (pings (boot demo_files))
                 (S (ticks (boot demo_files)))).
Proof.
  apply (nonpositive_count_sends_nothing demo_world "10.0.0.1" (-3) 4 56
           (boot demo_files) 0).
  lia.
Defined.

Lemma unbounded_step w t to ps f p :
  (forall n, match ping w t to ps n with Raises _ => False | _ => True end) ->
  count f = None -> target f = t -> timeout f = to -> packet_size f = ps ->
  in_try (at_pc f) = true ->
  count (fst (step w (f, p))) = None /\
  target (fst (step w (f, p))) = t /\
  timeout (fst (step w (f, p))) = to /\
  packet_size (fst (step w (f, p))) = ps /\
  in_try (at_pc (fst (step w (f, p)))) = true.
Proof.
  intros Hw Hc Ht Hto Hps Hin. unfold step.
  destruct (at_pc f) as [|r|[s|]| | | | |] eqn:Hpc; try discriminate.
  - unfold loop_done. rewrite Hc, Ht, Hto, Hps.
    specialize (Hw (pings p)).
    destruct (ping w t to ps (pings p)); [| |contradiction];
      cbn; repeat split; assumption.
  - cbn. repeat split; assumption.
  - cbn. repeat split; assumption.
  - cbn. repeat split; assumption.
  - rewrite update_interim_run. cbn. repeat split; assumption.
  - cbn. repeat split; assumption.
Qed.

Lemma unbounded_exec w t to ps fuel :
  (forall n, match ping w t to ps n with Raises _ => False | _ => True end) ->
  forall f p,
    count f = None -> target f = t -> timeout f = to -> packet_size f = ps ->
    in_try (at_pc f) = true ->
    exec w fuel (f, p) = None.
Proof.
  intros Hw. induction fuel as [|fuel IH]; intros f p Hc Ht Hto Hps Hin;
    cbn [exec fst];
    (replace (running f) with true
       by (unfold running; destruct (at_pc f); try reflexivity; discriminate)).
  - reflexivity.
  - destruct (unbounded_step w t to ps f p Hw Hc Ht Hto Hps Hin)
      as (Hc' & Ht' & Hto' & Hps' & Hin').
    destruct (step w (f, p)) as [f' p']. now apply IH.
Qed.

(** X12.  Without a count the loop has no exit of its own: if the
    transport never raises, [run_ping] does not return, whatever the
    number of steps it is given. *)
Theorem unbounded_run_never_returns w t to ps p fuel :
  (forall n, match ping w t to ps n with Raises _ => False | _ => True end) ->
  run_ping w fuel t None to ps p = None.
Proof.
  intros Hw. unfold run_ping.
  now rewrite (unbounded_exec w t to ps fuel Hw).
Qed.

Lemma unbounded_run_never_returns_witness :
  run_ping demo_world 40 "10.0.0.1" None 4 56 (boot demo_files) = None.
Proof.
  apply (unbounded_run_never_returns demo_world "10.0.0.1" 4 56
           (boot demo_files) 40).
  intros n. do 4 (destruct n as [|n]; [exact I|]). exact I.
Defined.

(** One round of the loop calls [ping] once, reads the clock once and
    prints one line. *)
Lemma iteration_counts w f p :
  at_pc f = AtPing -> loop_done f = false ->
  match ping w (target f) (timeout f) (packet_size f) (pings p) with
  | Raises _ => False
  | _ => True
  end ->
  pings (snd (steps w 5 (f, p))) = S (pings p) /\
  ticks (snd (steps w 5 (f, p))) = S (ticks p) /\
  length (stdout (snd (steps w 5 (f, p)))) = S (length (stdout p)).
Proof.
  intros Hpc Hdone Hans.
  assert (H : exists f' p',
            steps w 5 (f, p) = (f', p') /\ pings p' = S (pings p) /\
            ticks p' = S (ticks p) /\
            length (stdout p') = S (length (stdout p))).
  { change (steps w 5 (f, p)) with (steps w 4 (step w (f, p))).
    unfold step at 1. rewrite Hpc, Hdone.
    destruct (ping w _ _ _ _) as [s| |e]; [| |contradiction];
      cbn [steps step at_pc goto print snd];
      rewrite update_interim_run; cbn [at_pc goto];
      (eexists; eexists; split; [reflexivity|]);
      cbn [pings ticks stdout]; rewrite length_app; cbn [length];
      repeat split; lia. }
  destruct H as (f' & p' & -> & H1 & H2 & H3). now repeat split.
Qed.

Lemma loop_counts w t n to ps p k :
  stats (save_on_interrupt p) = None ->
  (forall j, (j < k)%nat -> answered w t to ps (pings p) j) ->
  (k <= n)%nat ->
  let q := snd (steps w (5 * k) (run_ping_init t (Some (Z.of_nat n)) to ps, p)) in
  pings q = (pings p + k)%nat /\ ticks q = (ticks p + k)%nat /\
  length (stdout q) = (length (stdout p) + k)%nat /\
  fs q = fs p.
Proof.
  intros Hs. induction k as [|k IH]; intros Hans Hle q.
  - subst q. cbn. repeat split; lia.
  - destruct IH as (Hp & Ht & Ho & _); [intros j Hj; apply Hans; lia|lia|].
    destruct (loop_rounds w t n to ps p k Hs) as [Hpc Hiter];
      [intros j Hj; apply Hans; lia|lia|].
    pose proof (run_ping_inv w t (Some (Z.of_nat n)) to ps p (5 * k) Hs) as Hinv.
    pose proof (steps_extends w (5 * S k)
                  (run_ping_init t (Some (Z.of_nat n)) to ps) p) as (Hfs & _).
    subst q. split; [|split; [|split; [|exact Hfs]]];
      replace (5 * S k)%nat with (5 * k + 5)%nat by lia; rewrite steps_add;
      destruct (steps w (5 * k) _) as [f0 q0]; cbn [fst snd] in *;
      (destruct (iteration_counts w f0 q0 Hpc) as (H1 & H2 & H3);
       [unfold loop_done; rewrite (inv_count _ _ _ _ _ _ _ _ Hinv), Hiter;
        apply Z.leb_gt; lia
       |rewrite (inv_target _ _ _ _ _ _ _ _ Hinv),
          (inv_timeout _ _ _ _ _ _ _ _ Hinv),
          (inv_packet_size _ _ _ _ _ _ _ _ Hinv);
        rewrite (inv_pings _ _ _ _ _ _ _ _ Hinv) by (now rewrite Hpc);
        unfold pinged; rewrite Hpc, Hiter, Nat.add_0_r; apply (Hans k); lia
       |lia]).
Qed.

Lemma final_steps w f q :
  at_pc f = AtPing -> loop_done f = true ->
  steps w 2 (f, q)
  = (goto (Returned (snapshot (target f) (now w (ticks q)) (sent f) (lost f)
                              (times f))) f,
     mkProc (fs q)
            (mkSlot (Some (snapshot (target f) (now w (ticks q)) (sent f)
                                    (lost f) (times f)))
                    (save_path (save_on_interrupt q))
                    (history (save_on_interrupt q)))
            (stdout q) (pings q) (S (ticks q))).
Proof.
  intros Hpc Hdone. cbn [steps]. unfold step at 2. rewrite Hpc, Hdone.
  unfold step. cbn [at_pc goto]. now rewrite final_block_run.
Qed.

(** X13.  With [count = n] and a transport that answers, [run_ping]
    returns after calling [ping] exactly [n] times: [sent] is [n], one
    line was printed per probe, the clock was read once per probe and once
    more for the final snapshot, and no file was touched. *)
Theorem bounded_run_sends_count_probes w t n to ps p fuel :
  stats (save_on_interrupt p) = None ->
  (forall j, (j < n)%nat -> answered w t to ps (pings p) j) ->
  (5 * n + 2 <= fuel)%nat ->
  exists v p',
    run_ping w fuel t (Some (Z.of_nat n)) to ps p = Some (Ok v, p') /\
    field v "sent" = Some (VInt (Z.of_nat n)) /\
    pings p' = (pings p + n)%nat /\
    ticks p' = (ticks p + n + 1)%nat /\
    length (stdout p') = (length (stdout p) + n)%nat /\
    fs p' = fs p.
Proof.
  intros Hs Hans Hfuel.
  destruct (loop_rounds w t n to ps p n Hs Hans (Nat.le_refl n)) as [Hpc Hiter].
  destruct (loop_counts w t n to ps p n Hs Hans (Nat.le_refl n))
    as (Hp & Ht & Ho & Hfs).
  pose proof (run_ping_inv w t (Some (Z.of_nat n)) to ps p (5 * n) Hs) as Hinv.
  assert (Hsteps : exists f q v,
            steps w (5 * n + 2) (run_ping_init t (Some (Z.of_nat n)) to ps, p)
            = (goto (Returned v) f, q) /\
            field v "sent" = Some (VInt (Z.of_nat n)) /\
            pings q = (pings p + n)%nat /\ ticks q = (ticks p + n + 1)%nat /\
            length (stdout q) = (length (stdout p) + n)%nat /\ fs q = fs p).
  { rewrite steps_add. destruct (steps w (5 * n) _) as [f q].
    cbn [fst snd] in *.
    rewrite (final_steps w f q Hpc).
    - eexists. eexists. eexists. split; [reflexivity|].
      cbn [field snapshot Py.assoc String.eqb Ascii.eqb Bool.eqb
           pings ticks stdout fs].
      rewrite (inv_sent _ _ _ _ _ _ _ _ Hinv). unfold counted.
      rewrite Hpc, Hiter, Nat.add_0_r. repeat split; try assumption. lia.
    - unfold loop_done. rewrite (inv_count _ _ _ _ _ _ _ _ Hinv), Hiter.
      apply Z.leb_le. lia. }
  destruct Hsteps as (f & q & v & Hst & Hv & Hq).
  exists v, q. split; [|split; [exact Hv|exact Hq]].
  unfold run_ping. rewrite (exec_enough w (5 * n + 2)), Hst.
  - reflexivity.
  - now rewrite Hst.
  - exact Hfuel.
Qed.

Lemma bounded_run_sends_count_probes_witness :
  exists v p',
    run_ping demo_world 27 "10.0.0.1" (Some (Z.of_nat 5)) 4 56 (boot demo_files)
      = Some (Ok v, p') /\
    field v "sent" = Some (VInt (Z.of_nat 5)) /\
    pings p' = (pings (boot demo_files) + 5)%nat /\
    ticks p' = (ticks (boot demo_files) + 5 + 1)%nat /\
    length (stdout p') = (length (stdout (boot demo_files)) + 5)%nat /\
    fs p' = fs (boot demo_files).
Proof.
  apply (bounded_run_sends_count_probes demo_world "10.0.0.1" 5 4 56
           (boot demo_files) 27).
  - reflexivity.
  - intros j Hj. do 5 (destruct j as [|j]; [exact I|]). lia.
  - vm_compute. lia.
Defined.

Lemma step_keeps_checkpoint w f p :
  stats (save_on_interrupt p) <> None ->
  stats (save_on_interrupt (snd (step w (f, p)))) <> None.
Proof.
  intros H. unfold step.
  destruct (at_pc f) as [|r|[s|]| | | | |]; cbn [snd]; try exact H.
  - destruct (loop_done f); [exact H|].
    destruct (ping w _ _ _ _); exact H.
  - rewrite update_interim_run. discriminate.
  - rewrite final_block_run. discriminate.
Qed.

(** X14.  The checkpoint is never cleared: once the slot holds a snapshot
    it holds one at every later point of the loop, so from the first
    recorded probe on an interruption always finds something to save. *)
Theorem checkpoint_stays w n m c :
  stats (save_on_interrupt (snd (steps w n c))) <> None ->
  stats (save_on_interrupt (snd (steps w (n + m) c))) <> None.
Proof.
  intros H. rewrite steps_add. induction m as [|m IH]; [exact H|].
  rewrite steps_S. destruct (steps w m (steps w n c)) as [f p].
  now apply step_keeps_checkpoint.
Qed.

Lemma checkpoint_stays_witness :
  stats (save_on_interrupt (snd (steps demo_world (4 + 9) demo_start))) <> None.
Proof.
  apply (checkpoint_stays demo_world 4 9 demo_start).
  vm_compute. discriminate.
Defined.

(** X15.  [run_ping] never writes a file and never changes the output
    path or the loaded history held in the slot, however it ends. *)
Theorem run_ping_leaves_files_alone w fuel t c to ps p r p' :
  run_ping w fuel t c to ps p = Some (r, p') ->
  fs p' = fs p /\
  save_path (save_on_interrupt p') = save_path (save_on_interrupt p) /\
  history (save_on_interrupt p') = history (save_on_interrupt p).
Proof.
  unfold run_ping.
  destruct (exec w fuel _) as [[f q]|] eqn:Hexec; [|discriminate].
  destruct (exec_steps _ _ _ _ Hexec) as [_ [m Hm]].
  pose proof (steps_extends w m (run_ping_init t c to ps) p) as (H1 & H2 & H3 & _).
  rewrite <- Hm in H1, H2, H3. cbn [snd] in *.
  destruct (at_pc f); try discriminate; intros [= _ <-]; now repeat split.
Qed.

Lemma run_ping_leaves_files_alone_witness :
  fs (snd demo_returned) = fs demo_ready /\
  save_path (save_on_interrupt (snd demo_returned))
    = save_path (save_on_interrupt demo_ready) /\
  history (save_on_interrupt (snd demo_returned))
    = history (save_on_interrupt demo_ready).
Proof.
  apply (run_ping_leaves_files_alone demo_world 30 "10.0.0.1" (Some 5) 4 56
           demo_ready (fst demo_returned) (snd demo_returned)).
  vm_compute. reflexivity.
Defined.

(** *** A transport that raises *)

(** Any count, bounded or not: after [k] answered probes the loop is
    about to send the next one. *)
Lemma rounds w t c to ps p k :
  stats (save_on_interrupt p) = None ->
  (forall j, (j < k)%nat -> answered w t to ps (pings p) j) ->
  allows c k ->
  at_pc (fst (steps w (5 * k) (run_ping_init t c to ps, p))) = AtPing /\
  iter (fst (steps w (5 * k) (run_ping_init t c to ps, p))) = k.
Proof.
  intros Hs. induction k as [|k IH]; intros Hans Hal; [now split|].
  destruct IH as [Hpc Hiter]; [intros j Hj; apply Hans; lia|
                               destruct c; cbn in *; [lia|exact I]|].
  replace (5 * S k)%nat with (5 * k + 5)%nat by lia. rewrite steps_add.
  pose proof (run_ping_inv w t c to ps p (5 * k) Hs) as Hinv.
  destruct (steps w (5 * k) _) as [f q]. cbn [fst snd] in *.
  destruct (iteration_steps w f q Hpc) as (H1 & H2 & _).
  - unfold loop_done. rewrite (inv_count _ _ _ _ _ _ _ _ Hinv), Hiter.
    destruct c as [z|]; [|reflexivity]. cbn in Hal. apply Z.leb_gt. lia.
  - rewrite (inv_target _ _ _ _ _ _ _ _ Hinv), (inv_timeout _ _ _ _ _ _ _ _ Hinv),
      (inv_packet_size _ _ _ _ _ _ _ _ Hinv).
    rewrite (inv_pings _ _ _ _ _ _ _ _ Hinv) by now rewrite Hpc.
    unfold pinged. rewrite Hpc, Hiter, Nat.add_0_r.
    apply (Hans k). lia.
  - split; [exact H1|]. now rewrite H2, Hiter.
Qed.

(** The state in which the [k]-th probe (counting from 0) raises [e]:
    the counters are those of [k] answered probes, and the slot holds
    their snapshot, or nothing when [k = 0]. *)
Lemma raising_probe w t c to ps p k e :
  stats (save_on_interrupt p) = None ->
  (forall j, (j < k)%nat -> answered w t to ps (pings p) j) ->
  allows c (S k) ->
  answer w t to ps (pings p) k = Raises e ->
  exists f q,
    steps w (5 * k + 1) (run_ping_init t c to ps, p)
    = (throw e f, mkProc (fs q) (save_on_interrupt q) (stdout q)
                         (S (pings q)) (ticks q)) /\
    at_pc f = AtPing /\ target f = t /\
    sent f = Z.of_nat k /\ lost f = timeouts w t to ps (pings p) k /\
    times f = replies w t to ps (pings p) k /\
    fs q = fs p /\
    save_path (save_on_interrupt q) = save_path (save_on_interrupt p) /\
    history (save_on_interrupt q) = history (save_on_interrupt p) /\
    match stats (save_on_interrupt q) with
    | None => k = 0%nat
    | Some v => (1 <= k)%nat /\
                exists ts, v = snapshot t ts (Z.of_nat k)
                                        (timeouts w t to ps (pings p) k)
                                        (replies w t to ps (pings p) k)
    end /\
    (k = 0%nat -> q = p).
Proof.
  intros Hs Hans Hal He.
  destruct (rounds w t c to ps p k Hs Hans) as [Hpc Hiter];
    [destruct c; cbn in *; [lia|exact I]|].
  pose proof (run_ping_inv w t c to ps p (5 * k) Hs) as Hinv.
  pose proof (steps_extends w (5 * k) (run_ping_init t c to ps) p)
    as (Hfs & Hsp & Hh & _).
  assert (Hz : k = 0%nat ->
               snd (steps w (5 * k) (run_ping_init t c to ps, p)) = p)
    by (intros ->; reflexivity).
  rewrite steps_add. destruct (steps w (5 * k) _) as [f q]. cbn [fst snd] in *.
  exists f, q.
  pose proof (inv_slot _ _ _ _ _ _ _ _ Hinv) as Hslot.
  unfold slot_inv, checkpointed in Hslot. rewrite Hpc, Hiter, Nat.add_0_r in Hslot.
  repeat split; try assumption.
  - cbn [steps]. unfold step. rewrite Hpc.
    replace (loop_done f) with false.
    + rewrite (inv_target _ _ _ _ _ _ _ _ Hinv),
        (inv_timeout _ _ _ _ _ _ _ _ Hinv),
        (inv_packet_size _ _ _ _ _ _ _ _ Hinv).
      rewrite (inv_pings _ _ _ _ _ _ _ _ Hinv) by now rewrite Hpc.
      unfold pinged. rewrite Hpc, Hiter, Nat.add_0_r.
      unfold answer in He. now rewrite He.
    + symmetry. unfold loop_done.
      rewrite (inv_count _ _ _ _ _ _ _ _ Hinv), Hiter.
      destruct c as [z|]; [|reflexivity]. cbn in Hal. apply Z.leb_gt. lia.
  - exact (inv_target _ _ _ _ _ _ _ _ Hinv).
  - rewrite (inv_sent _ _ _ _ _ _ _ _ Hinv). unfold counted.
    now rewrite Hpc, Hiter, Nat.add_0_r.
  - rewrite (inv_lost _ _ _ _ _ _ _ _ Hinv). unfold recorded.
    now rewrite Hpc, Hiter, Nat.add_0_r.
  - rewrite (inv_times _ _ _ _ _ _ _ _ Hinv). unfold recorded.
    now rewrite Hpc, Hiter, Nat.add_0_r.
  - destruct (stats (save_on_interrupt q)) as [v|] eqn:Hstats.
    + destruct Hslot as [Hsnap _]. split; [|exact Hsnap].
      destruct k; [|lia]. rewrite (Hz eq_refl), Hs in Hstats. discriminate.
    + now destruct Hslot.
Qed.

(** X16.  A [KeyboardInterrupt] raised by the transport ends the loop
    without an error: [run_ping] returns the snapshot of the probes
    answered before it. *)
Theorem keyboard_interrupt_returns_partial w t c to ps p k fuel :
  stats (save_on_interrupt p) = None ->
  (forall j, (j < k)%nat -> answered w t to ps (pings p) j) ->
  allows c (S k) ->
  answer w t to ps (pings p) k = Raises KeyboardInterrupt ->
  (5 * k + 2 <= fuel)%nat ->
  exists ts p',
    run_ping w fuel t c to ps p
    = Some (Ok (snapshot t ts (Z.of_nat k) (timeouts w t to ps (pings p) k)
                         (replies w t to ps (pings p) k)), p').
Proof.
  intros Hs Hans Hal He Hfuel.
  destruct (raising_probe w t c to ps p k _ Hs Hans Hal He)
    as (f & q & Hst & Hpc & Ht & Hsent & Hlost & Htimes & _).
  assert (H2 : exists ts q',
            steps w (5 * k + 2) (run_ping_init t c to ps, p)
            = (goto (Returned (snapshot t ts (Z.of_nat k)
                                 (timeouts w t to ps (pings p) k)
                                 (replies w t to ps (pings p) k)))
                    (goto AtFinal f), q')).
  { replace (5 * k + 2)%nat with (S (5 * k + 1)) by lia.
    rewrite steps_S, Hst. unfold throw. rewrite Hpc. cbn [in_try].
    unfold step. cbn [at_pc goto]. rewrite final_block_run.
    cbn [target sent lost times goto]. rewrite Ht, Hsent, Hlost, Htimes.
    eexists. eexists. reflexivity. }
  destruct H2 as (ts & q' & H2). exists ts, q'.
  unfold run_ping. rewrite (exec_enough w (5 * k + 2)), H2.
  - reflexivity.
  - now rewrite H2.
  - exact Hfuel.
Qed.

Lemma keyboard_interrupt_returns_partial_witness :
  exists ts p',
    run_ping demo_interrupted 7 "10.0.0.1" None 4 56 (boot demo_files)
    = Some (Ok (snapshot "10.0.0.1" ts (Z.of_nat 1)
                  (timeouts demo_interrupted "10.0.0.1" 4 56
                            (pings (boot demo_files)) 1)
                  (replies demo_interrupted "10.0.0.1" 4 56
                           (pings (boot demo_files)) 1)), p').
Proof.
  apply (keyboard_interrupt_returns_partial demo_interrupted "10.0.0.1" None
           4 56 (boot demo_files) 1 7).
  - reflexivity.
  - intros j Hj. destruct j; [exact I|lia].
  - exact I.
  - reflexivity.
  - lia.
Defined.

(** ** The program: failures *)

(** X17.  When the host does not resolve, [main] prints the error and ends
    with exit status 1, whatever else was asked: no probe is sent, no file
    is read or written. *)
Theorem resolution_failure_exits_1 w a sigint fuel files :
  gethostbyname w (arg_target a) = None ->
  main w a sigint fuel (boot files)
  = Some (Exit 1, emit [ResolveError (arg_target a)] (boot files)).
Proof.
  intros H. unfold main, main_setup, bind at 1. now rewrite H.
Qed.

Lemma resolution_failure_exits_1_witness :
  main demo_world (mkArgs "nowhere" (Some 5) 4 56 "ping_history" None None)
       None 30 (boot demo_files)
  = Some (Exit 1,
          emit [ResolveError
                  (arg_target (mkArgs "nowhere" (Some 5) 4 56 "ping_history"
                                      None None))]
               (boot demo_files)).
Proof.
  apply (resolution_failure_exits_1 demo_world
           (mkArgs "nowhere" (Some 5) 4 56 "ping_history" None None)
           None 30 demo_files).
  reflexivity.
Defined.

(** X18.  When the comparison file decodes but holds an entry that is not
    an object, [main] ends with an uncaught [AttributeError] before the
    first probe: nothing is printed, saved or sent. *)
Theorem non_object_history_crashes_at_start w a sigint fuel files dest v :
  gethostbyname w (arg_target a) = Some dest ->
  files !! comp_path_of w a = Some (Json v) ->
  forallb is_dict (as_list v) = false ->
  main w a sigint fuel (boot files)
  = Some (Traceback AttributeError, boot files).
Proof.
  intros Hd Hf Hv. unfold main, main_setup, bind at 1. rewrite Hd.
  unfold ret at 1, bind at 1. rewrite load_history_select. cbn [fs boot].
  unfold load_all. rewrite Hf, (select_target_non_object _ _ Hv). reflexivity.
Qed.

Lemma non_object_history_crashes_at_start_witness :
  main demo_world demo_args None 30
       (boot {[ "/srv/ping_history.json" := Json (VList [demo_earlier; VInt 1]) ]})
  = Some (Traceback AttributeError,
          boot {[ "/srv/ping_history.json" := Json (VList [demo_earlier; VInt 1]) ]}).
Proof.
  apply (non_object_history_crashes_at_start demo_world demo_args None 30
           {[ "/srv/ping_history.json" := Json (VList [demo_earlier; VInt 1]) ]}
           "10.0.0.1" (VList [demo_earlier; VInt 1])).
  - reflexivity.
  - vm_compute. reflexivity.
  - reflexivity.
Defined.

Lemma throw_exception e f :
  is_Exception e = true -> throw e f = goto (Raised e) f.
Proof. destruct e; try discriminate; reflexivity. Qed.

(** X19.  When the transport raises an exception on the very first probe,
    [main] reports it, says that nothing was collected, and ends with exit
    status 1 without writing any file. *)
Theorem error_on_first_probe w a files dest h e fuel :
  gethostbyname w (arg_target a) = Some dest ->
  select_target dest (load_all (comp_path_of w a) files) = Ok h ->
  allows (arg_count a) 1 ->
  ping w dest (arg_timeout a) (arg_packet_size a) 0 = Raises e ->
  is_Exception e = true ->
  (1 <= fuel)%nat ->
  exists p',
    main w a None fuel (boot files) = Some (Exit 1, p') /\
    stdout p' = [PingError e; Text "No stats collected; nothing to save."] /\
    fs p' = files.
Proof.
  intros Hd Hh Hal He Hex Hfuel.
  unfold main. rewrite (main_setup_run w a files dest h Hd Hh).
  set (p0 := mkProc files _ [] 0%nat 0%nat).
  destruct (raising_probe w dest (arg_count a) (arg_timeout a)
              (arg_packet_size a) p0 0 e eq_refl)
    as (f & q & Hst & Hpc & _ & _ & _ & _ & _ & _ & _ & _ & Hq);
    [intros j Hj; lia|exact Hal|unfold answer; exact He|].
  specialize (Hq eq_refl). subst q.
  cbn [Nat.mul Nat.add] in Hst. rewrite (throw_exception e f Hex) in Hst.
  rewrite (exec_enough w 1); [|now rewrite Hst|exact Hfuel].
  rewrite Hst. unfold main_finish. cbn [at_pc goto]. rewrite Hex.
  eexists. split; [reflexivity|]. split; reflexivity.
Qed.

Lemma error_on_first_probe_witness :
  exists p',
    main demo_unreachable demo_args None 1 (boot demo_files)
      = Some (Exit 1, p') /\
    stdout p' = [PingError OSError;
                 Text "No stats collected; nothing to save."] /\
    fs p' = demo_files.
Proof.
  apply (error_on_first_probe demo_unreachable demo_args demo_files
           "10.0.0.1" [demo_earlier] OSError 1).
  - reflexivity.
  - vm_compute. reflexivity.
  - vm_compute. discriminate.
  - reflexivity.
  - reflexivity.
  - lia.
Defined.

(** X20.  When the transport raises an exception after [k >= 1] answered
    probes, [main] reports it, saves the checkpoint of those [k] probes
    once, compares it with the loaded history, displays it, and ends with
    exit status 1. *)
Theorem error_after_probes_saves_checkpoint w a files dest h e k fuel :
  gethostbyname w (arg_target a) = Some dest ->
  select_target dest (load_all (comp_path_of w a) files) = Ok h ->
  Forall run_record h ->
  (forall j, (j < k)%nat ->
     answered w dest (arg_timeout a) (arg_packet_size a) 0 j) ->
  (1 <= k)%nat ->
  allows (arg_count a) (S k) ->
  ping w dest (arg_timeout a) (arg_packet_size a) k = Raises e ->
  is_Exception e = true ->
  (5 * k + 1 <= fuel)%nat ->
  exists ts p1 report display,
    let v := snapshot dest ts (Z.of_nat k)
               (timeouts w dest (arg_timeout a) (arg_packet_size a) 0 k)
               (replies w dest (arg_timeout a) (arg_packet_size a) 0 k) in
    main w a None fuel (boot files)
    = Some (Exit 1,
            emit (PingError e
                    :: Text "Attempting to save partial results due to error..."
                    :: ResultsSaved (save_path_of w a) :: report ++ display)
                 (stored v (save_path_of w a) p1)) /\
    fs p1 = files /\
    comparison_report v h report /\
    forall q, print_current_results v q = (Ok tt, emit display q).
Proof.
  intros Hd Hh Hrec Hans Hk Hal He Hex Hfuel.
  unfold main. rewrite (main_setup_run w a files dest h Hd Hh).
  set (p0 := mkProc files _ [] 0%nat 0%nat).
  destruct (raising_probe w dest (arg_count a) (arg_timeout a)
              (arg_packet_size a) p0 k e eq_refl Hans Hal)
    as (f & q & Hst & Hpc & _ & _ & _ & _ & Hfs & _ & _ & Hslot & _);
    [unfold answer; exact He|].
  rewrite (throw_exception e f Hex) in Hst.
  rewrite (exec_enough w (5 * k + 1)); [|now rewrite Hst|exact Hfuel].
  rewrite Hst.
  destruct (stats (save_on_interrupt q)) as [v|] eqn:Hv; [|lia].
  destruct Hslot as [_ [ts ->]].
  set (v := snapshot _ _ _ _ _) in *.
  set (q' := mkProc (fs q) _ _ _ _).
  destruct (print_current_results_run dest ts (Z.of_nat k)
              (timeouts w dest (arg_timeout a) (arg_packet_size a) 0 k)
              (replies w dest (arg_timeout a) (arg_packet_size a) 0 k))
    as [display Hdisp].
  fold v in Hdisp.
  destruct (print_comparison_run v h
              (emit [ResultsSaved (save_path_of w a)]
                 (stored v (save_path_of w a)
                    (emit [Text "Attempting to save partial results due to error..."]
                       (emit [PingError e] q'))))
              (run_record_snapshot _ _ _ _ _) Hrec)
    as (report & Hcmp & Hrep).
  exists ts, q', report, display. cbv zeta. fold v.
  split; [|split; [exact Hfs|split; [exact Hrep|exact Hdisp]]].
  unfold main_finish. cbn [at_pc goto l_save_path l_history]. rewrite Hex.
  unfold bind at 1. rewrite print_emit.
  unfold bind at 1, read_slot. cbn [save_on_interrupt emit q']. rewrite Hv.
  change (Py.truthy v) with true. cbv iota.
  unfold bind at 1. unfold bind at 1. rewrite print_emit.
  unfold bind at 1. rewrite save_results_stored.
  unfold bind at 1. rewrite Hcmp, Hdisp.
  unfold raise. cbn [outcome_of].
  rewrite !stored_emit, !emit_emit. reflexivity.
Qed.

Lemma error_after_probes_saves_checkpoint_witness :
  exists ts p1 report display,
    let v := snapshot "10.0.0.1" ts (Z.of_nat 1)
               (timeouts demo_failing "10.0.0.1" (arg_timeout demo_args)
                         (arg_packet_size demo_args) 0 1)
               (replies demo_failing "10.0.0.1" (arg_timeout demo_args)
                        (arg_packet_size demo_args) 0 1) in
    main demo_failing demo_args None 6 (boot demo_files)
    = Some (Exit 1,
            emit (PingError OSError
                    :: Text "Attempting to save partial results due to error..."
                    :: ResultsSaved (save_path_of demo_failing demo_args)
                    :: report ++ display)
                 (stored v (save_path_of demo_failing demo_args) p1)) /\
    fs p1 = demo_files /\
    comparison_report v [demo_earlier] report /\
    forall q, print_current_results v q = (Ok tt, emit display q).
Proof.
  apply (error_after_probes_saves_checkpoint demo_failing demo_args demo_files
           "10.0.0.1" [demo_earlier] OSError 1 6).
  - reflexivity.
  - vm_compute. reflexivity.
  - repeat constructor; try (eexists; reflexivity); discriminate.
  - intros j Hj. destruct j; [exact I|lia].
  - lia.
  - vm_compute. discriminate.
  - reflexivity.
  - reflexivity.
  - lia.
Defined.

(** ** A comparison that fails *)

Lemma first_failure_exception current history e :
  first_failure current history = Some e ->
  is_Exception e = true /\ outcome_of (Raise e) = Traceback e.
Proof.
  induction history as [|prev rest IH]; [discriminate|].
  cbn [first_failure]. destruct (entry_failure current prev) as [e'|] eqn:He.
  - intros [= ->]. unfold entry_failure in He.
    destruct prev; try (injection He as <-; now split).
    destruct (field _ _); [|injection He as <-; now split].
    destruct (forallb _ _); [discriminate|injection He as <-; now split].
  - exact IH.
Qed.

(** Saving, then a comparison that fails: the result is in the file, the
    display is never reached, and the failure propagates. *)
Lemma save_then_failing_comparison v path h e p :
  is_dict v = true -> first_failure v h = Some e ->
  exists lines,
    (save_results v path ;; print_comparison v h ;; print_current_results v)%py p
    = (Raise e, emit (ResultsSaved path :: lines) (stored v path p)).
Proof.
  intros Hv He. unfold bind at 1. rewrite save_results_stored.
  set (q := emit _ _).
  pose proof (print_comparison_fst v h q Hv) as Hfst. rewrite He in Hfst.
  destruct (print_comparison_cites v h q) as (lines & Hsnd & _).
  unfold bind. destruct (print_comparison v h q) as [r q'].
  cbn [fst snd outcome_of_failure] in *. subst r q'.
  exists lines. subst q. now rewrite emit_emit.
Qed.

(** X21.  A [SIGINT] arriving while [run_ping] runs, with a checkpoint in
    the slot and a loaded history on which the comparison fails: the
    handler saves the checkpoint and fails in the comparison; that failure
    leaves [run_ping] and is caught in [main], which saves the same
    checkpoint a second time and fails in the comparison again.  The
    process ends with a traceback, and the output file holds the
    checkpoint twice. *)
Theorem interrupt_with_failing_comparison_saves_twice
    w a files l f p i fuel v e :
  main_setup w a (boot files) = (Ok (l, f), p) ->
  running (fst (steps w i (f, p))) = true ->
  stats (save_on_interrupt (snd (steps w i (f, p)))) = Some v ->
  first_failure v (l_history l) = Some e ->
  exists p2,
    main w a (Some i) fuel (boot files) = Some (Traceback e, p2) /\
    load_all (l_save_path l) (fs p2)
    = load_all (l_save_path l) files ++ [v; v].
Proof.
  intros Hsetup Hrun Hv He. unfold main. rewrite Hsetup, Hrun.
  destruct (main_setup_ok _ _ _ _ _ _ Hsetup) as (dest & h & _ & _ & -> & -> & ->).
  set (p0 := mkProc files _ [] 0%nat 0%nat) in *.
  pose proof (run_ping_inv w dest (arg_count a) (arg_timeout a)
                (arg_packet_size a) p0 i eq_refl) as Hinv.
  pose proof (steps_extends w i
                (run_ping_init dest (arg_count a) (arg_timeout a)
                               (arg_packet_size a)) p0)
    as (Hfs & Hsp & Hh & _).
  destruct (steps w i _) as [f1 p1]. cbn [fst snd l_history l_save_path] in *.
  pose proof (inv_slot _ _ _ _ _ _ _ _ Hinv) as Hslot. unfold slot_inv in Hslot.
  rewrite Hv in Hslot. destruct Hslot as [(ts & Hsnap) _].
  assert (Hd : is_dict v = true) by now rewrite Hsnap.
  assert (Ht : Py.truthy v = true) by now rewrite Hsnap.
  destruct (first_failure_exception v h e He) as [Hex Hout].
  set (sp := save_path_of w a) in *.
  destruct (save_then_failing_comparison v sp h e
              (emit [Text "Interrupted by user. Saving results..."] p1) Hd He)
    as (lines1 & H1).
  assert (Hhandler : sigint_handler p1
            = (Raise e, emit (Text "Interrupted by user. Saving results..."
                                :: ResultsSaved sp :: lines1)
                             (stored v sp p1))).
  { unfold sigint_handler, bind at 1, read_slot. rewrite Hv, Ht.
    unfold bind at 1. unfold bind at 1. rewrite print_emit.
    unfold save_compare_display. rewrite Hsp, Hh. unfold p0.
    cbn [save_path history save_on_interrupt].
    change (default [] (Some h)) with h.
    rewrite H1. now rewrite stored_emit, emit_emit. }
  unfold deliver_sigint. rewrite Hhandler, (throw_exception e f1 Hex).
  rewrite exec_stopped by reflexivity.
  set (q1 := emit _ (stored v sp p1)).
  destruct (save_then_failing_comparison v sp h e
              (emit [Text "Attempting to save partial results due to error..."]
                 (emit [PingError e] q1)) Hd He)
    as (lines2 & H2).
  unfold main_finish. cbn [at_pc goto l_save_path l_history]. rewrite Hex.
  unfold bind at 1. rewrite print_emit.
  unfold bind at 1, read_slot.
  change (stats (save_on_interrupt (emit [PingError e] q1)))
    with (stats (save_on_interrupt p1)).
  rewrite Hv, Ht.
  unfold bind at 1. unfold bind at 1. rewrite print_emit, H2. rewrite Hout.
  eexists. split; [reflexivity|].
  cbn [fs emit stored q1]. rewrite !load_all_insert, Hfs, <- app_assoc.
  reflexivity.
Qed.

Lemma interrupt_with_failing_comparison_saves_twice_witness :
  exists p2,
    main demo_world demo_args (Some 14%nat) 0 (boot demo_untimed_files)
      = Some (Traceback KeyError, p2) /\
    load_all (l_save_path demo_untimed_locals) (fs p2)
    = load_all (l_save_path demo_untimed_locals) demo_untimed_files
      ++ [snapshot "10.0.0.1" "T2" 3 1 [(1 # 100) * 1000; (2 # 100) * 1000]%Q;
          snapshot "10.0.0.1" "T2" 3 1 [(1 # 100) * 1000; (2 # 100) * 1000]%Q].
Proof.
  apply (interrupt_with_failing_comparison_saves_twice demo_world demo_args
           demo_untimed_files demo_untimed_locals demo_frame
           demo_untimed_ready 14 0).
  - vm_compute. reflexivity.
  - vm_compute. reflexivity.
  - vm_compute. reflexivity.
  - vm_compute. reflexivity.
Defined.

(** ** File names and paths *)

Lemma substring_all s : String.substring 0 (String.length s) s = s.
Proof. induction s as [|c s IH]; [reflexivity|]. simpl. now rewrite IH. Qed.

Lemma substring_skip s t m :
  String.substring (String.length s) m (s +:+ t) = String.substring 0 m t.
Proof. induction s as [|c s IH]; [reflexivity|]. simpl. exact IH. Qed.

Lemma length_app s t :
  String.length (s +:+ t) = (String.length s + String.length t)%nat.
Proof. induction s as [|c s IH]; [reflexivity|]. simpl. now rewrite IH. Qed.

Lemma endswith_app s suffix : Py.endswith (s +:+ suffix) suffix = true.
Proof.
  unfold Py.endswith. rewrite length_app.
  replace (String.length suffix <=? String.length s + String.length suffix)%nat
    with true by (symmetry; apply Nat.leb_le; lia).
  replace (String.length s + String.length suffix - String.length suffix)%nat
    with (String.length s) by lia.
  rewrite substring_skip, substring_all. apply String.eqb_refl.
Qed.

Lemma with_json_endswith name : Py.endswith (with_json name) ".json" = true.
Proof.
  unfold with_json. destruct (Py.endswith name ".json") eqn:E; [exact E|].
  apply endswith_app.
Qed.

Lemma with_json_idem name : with_json (with_json name) = with_json name.
Proof. unfold with_json at 1. now rewrite with_json_endswith. Qed.

(** X22.  Both file names [main] uses, for the output and for the
    comparison, end in [.json], whatever was given on the command line. *)
Theorem file_names_end_in_json a :
  Py.endswith (out_file_of a) ".json" = true /\
  Py.endswith (with_json (or_else (arg_compare a) (out_file_of a))) ".json"
    = true.
Proof. split; apply with_json_endswith. Qed.

(** X23.  Without [--compare] (or with an empty one) the history is read
    from the very file the results are written to. *)
Theorem default_compare_path_is_output_path w a :
  arg_compare a = None \/ arg_compare a = Some "" ->
  comp_path_of w a = save_path_of w a.
Proof.
  intros H. unfold comp_path_of, save_path_of.
  replace (or_else (arg_compare a) (out_file_of a)) with (out_file_of a)
    by (destruct H as [-> | ->]; reflexivity).
  unfold out_file_of. now rewrite with_json_idem.
Qed.

Lemma default_compare_path_is_output_path_witness :
  comp_path_of demo_world demo_args = save_path_of demo_world demo_args.
Proof.
  apply (default_compare_path_is_output_path demo_world demo_args).
  left. reflexivity.
Defined.

Lemma targets_snapshot t ts s l times :
  targets t (snapshot t ts s l times) = true.
Proof.
  unfold targets.
  replace (field (snapshot t ts s l times) "target") with (Some (VStr t))
    by (unfold snapshot; now destruct times).
  apply String.eqb_refl.
Qed.

(** X24.  Runs accumulate: after a run that completes with the default
    comparison file, the history a next run against the same host would
    load is the history this run loaded followed by this run's result. *)
Theorem completed_run_joins_history w a files dest n h fuel :
  gethostbyname w (arg_target a) = Some dest ->
  arg_count a = Some (Z.of_nat n) ->
  arg_compare a = None \/ arg_compare a = Some "" ->
  select_target dest (load_all (comp_path_of w a) files) = Ok h ->
  Forall run_record h ->
  (forall j, (j < n)%nat ->
     answered w dest (arg_timeout a) (arg_packet_size a) 0 j) ->
  (5 * n + 2 <= fuel)%nat ->
  exists ts p',
    main w a None fuel (boot files) = Some (Exit 0, p') /\
    history_at_start w a (fs p')
    = h ++ [snapshot dest ts (Z.of_nat n)
              (timeouts w dest (arg_timeout a) (arg_packet_size a) 0 n)
              (replies w dest (arg_timeout a) (arg_packet_size a) 0 n)].
Proof.
  intros Hd Hc Hcmp Hh Hrec Hans Hfuel.
  destruct (main_completes w a files dest n h fuel Hd Hc Hh Hrec Hans Hfuel)
    as (ts & p1 & report & display & Hmain & Hfs & _).
  cbv zeta in Hmain. exists ts. eexists. split; [exact Hmain|].
  unfold history_at_start. rewrite Hd, load_history_select.
  assert (Hpath : comp_path_of w a = save_path_of w a).
  { unfold comp_path_of, save_path_of.
    replace (or_else (arg_compare a) (out_file_of a)) with (out_file_of a)
      by (destruct Hcmp as [-> | ->]; reflexivity).
    unfold out_file_of. now rewrite with_json_idem. }
  rewrite Hpath in *.
  cbn [fs emit stored boot fst]. rewrite load_all_insert, Hfs.
  rewrite (select_target_snoc dest _ _ h) by (assumption || easy).
  now rewrite targets_snapshot.
Qed.

Lemma completed_run_joins_history_witness :
  exists ts p',
    main demo_world demo_args None 30 (boot demo_files) = Some (Exit 0, p') /\
    history_at_start demo_world demo_args (fs p')
    = [demo_earlier]
      ++ [snapshot "10.0.0.1" ts (Z.of_nat 5)
            (timeouts demo_world "10.0.0.1" (arg_timeout demo_args)
                      (arg_packet_size demo_args) 0 5)
            (replies demo_world "10.0.0.1" (arg_timeout demo_args)
                     (arg_packet_size demo_args) 0 5)].
Proof.
  apply (completed_run_joins_history demo_world demo_args demo_files
           "10.0.0.1" 5 [demo_earlier] 30).
  - reflexivity.
  - reflexivity.
  - left. reflexivity.
  - vm_compute. reflexivity.
  - repeat constructor; try (eexists; reflexivity); discriminate.
  - intros j Hj. do 5 (destruct j as [|j]; [exact I|]). lia.
  - lia.
Defined.
